(** * e2ebench visualization CLI: the selection pipeline

    A shallow embedding of [e2ebench/visualization_cli.py]: the criteria
    filter, the three interactive selection stages, the payload join and the
    render dispatch.  Data frames are lists of rows (a record per row, a
    field per column), fallible steps live in the error monad [sum exn],
    and the checkbox prompt is driven by an explicit user. *)

From Stdlib Require Import String ZArith Bool Lia List Permutation Sorted.
From ExtLib Require Import Structures.Monad Data.Monads.EitherMonad.
Import ListNotations.
Import MonadNotation.
Local Open Scope monad_scope.
Local Open Scope string_scope.
Local Open Scope Z_scope.

(** ** Exceptions and the error monad *)

Inductive exn : Type :=
| NoDatabaseEntries        (* Exception("There are no database entries with the given ...") *)
| UnhashableType           (* TypeError: unhashable type: 'list' *)
| KeyError (key : string)  (* type_to_visualizer_class_mapper[meas_type], prompt(...)[name] *)
| EmptyChoices             (* IndexError: pop from empty list, a checkbox without entries *)
| NotIterable              (* TypeError: 'Figure' object is not iterable *)
| NoShowAttribute          (* AttributeError: ... has no attribute 'show' *)
| UnpicklingError          (* pickle.loads on a damaged payload *)
| RendererError (msg : string).

Abbreviation result := (sum exn).

Definition raise {A : Type} (e : exn) : result A := inl e.

Definition succeeded {A : Type} (r : result A) : bool :=
  match r with inr _ => true | inl _ => false end.

(** ** Python values that reach [Series.isin] *)

#[local] Set Warnings "-register-all".

Inductive PyVal : Type :=
| PNone
| PInt (z : Z)
| PStr (s : string)
| PList (items : list PyVal).

(** Python's [==] on these values: values of different types are unequal,
    lists are compared element by element. *)
Fixpoint py_eq (a b : PyVal) : bool :=
  match a, b with
  | PNone, PNone => true
  | PInt x, PInt y => Z.eqb x y
  | PStr s, PStr t => String.eqb s t
  | PList l, PList m =>
      (fix go (l m : list PyVal) : bool :=
         match l, m with
         | [], [] => true
         | x :: l', y :: m' => py_eq x y && go l' m'
         | _, _ => false
         end) l m
  | _, _ => false
  end.

Definition hashable (v : PyVal) : bool :=
  match v with PList _ => false | _ => true end.

Definition py_strs (l : list string) : PyVal := PList (map PStr l).

Definition py_opt (o : option string) : PyVal :=
  match o with Some s => PStr s | None => PNone end.

(** [Series.isin(values)] looks every cell up in a hash table built from
    [values].  What happens to a target that cannot be hashed depends on the
    pandas release: the hashing error is either surfaced, or swallowed and
    the target compared by equality alone. *)
Inductive HashPolicy : Type := SurfaceHashError | CompareByEquality.

Definition isin (pol : HashPolicy) (cells values : list PyVal) : result (list bool) :=
  match pol with
  | SurfaceHashError =>
      if forallb hashable values && forallb hashable cells
      then ret (map (fun c => existsb (py_eq c) values) cells)
      else raise UnhashableType
  | CompareByEquality =>
      ret (map (fun c => existsb (py_eq c) values) cells)
  end.

Arguments isin : simpl never.

(** [df[mask]]: the rows whose mask entry is [True]. *)
Fixpoint loc {R : Type} (rows : list R) (mask : list bool) : list R :=
  match rows, mask with
  | r :: rows', b :: mask' => if b then r :: loc rows' mask' else loc rows' mask'
  | _, _ => []
  end.

(** [DataFrame.groupby(key)]: one group per distinct key, keys in ascending
    order, each group holding its rows in frame order.  Rows whose key is
    null belong to no group. *)
Section GroupBy.
Context {R K : Type}.
Variable eqb : K -> K -> bool.
Variable leb : K -> K -> bool.

Fixpoint insert_sorted (k : K) (l : list K) : list K :=
  match l with
  | [] => [k]
  | h :: t => if leb k h then k :: l else h :: insert_sorted k t
  end.

Definition sort_keys (l : list K) : list K := fold_right insert_sorted [] l.

Fixpoint unique (l : list K) : list K :=
  match l with
  | [] => []
  | k :: t => if existsb (eqb k) t then unique t else k :: unique t
  end.

Fixpoint dropna (l : list (option K)) : list K :=
  match l with
  | [] => []
  | Some k :: t => k :: dropna t
  | None :: t => dropna t
  end.

Definition group_keys (l : list (option K)) : list K :=
  sort_keys (unique (dropna l)).

Definition has_key (key : R -> option K) (k : K) (r : R) : bool :=
  match key r with Some k' => eqb k' k | None => false end.

Definition groupby (key : R -> option K) (rows : list R) : list (K * list R) :=
  map (fun k => (k, filter (has_key key k) rows)) (group_keys (map key rows)).

(** The rows [groupby] does not drop. *)
Definition keyed (key : R -> option K) (r : R) : bool :=
  match key r with Some _ => true | None => false end.
End GroupBy.

Definition pair_eqb (a b : string * string) : bool :=
  String.eqb (fst a) (fst b) && String.eqb (snd a) (snd b).

(** Tuples are ordered lexicographically. *)
Definition pair_leb (a b : string * string) : bool :=
  if String.eqb (fst a) (fst b) then String.leb (snd a) (snd b)
  else String.leb (fst a) (fst b).

(** [DataFrame.merge(right, on=key)], an inner join: every left row paired
    with each right row that has the same key.  The rows are produced in the
    order of the left frame; what is proved of a joined table below is stated
    up to the order of its rows. *)
Definition merge {L R K O : Type} (eqb : K -> K -> bool) (lkey : L -> K) (rkey : R -> K)
    (combine : L -> R -> O) (left : list L) (right : list R) : list O :=
  flat_map (fun l => map (combine l) (filter (fun r => eqb (lkey l) (rkey r)) right)) left.

Fixpoint mapM {A B : Type} (f : A -> result B) (l : list A) : result (list B) :=
  match l with
  | [] => ret []
  | a :: t => b <- f a ;; bs <- mapM f t ;; ret (b :: bs)
  end.

(** ** Data model *)

(** A timestamp is kept by its [str()] rendering, the only way the tool
    reads it. *)
Definition timestamp : Type := string.

(** A row of [meas_df]: columns id, uuid, measurement_type, measurement_desc. *)
Record MeasRow : Type := mkMeasRow {
  id : Z;
  uuid : string;
  measurement_type : string;
  measurement_desc : option string
}.

(** A row of [meta_df]: columns uuid, meta_desc, meta_start_time. *)
Record MetaRow : Type := mkMetaRow {
  meta_uuid : string;
  meta_desc : option string;
  meta_start_time : timestamp
}.

Inductive Backend : Type := matplotlib | plotly.

(** The namespace returned by [get_args]. *)
Record Args : Type := mkArgs {
  file : string;
  uuids : option (list string);
  types : option (list string);
  descriptions : option (list string);
  plotting_backend : Backend
}.

(** [if args.x:] holds for a non-empty list only. *)
Definition truthy {A : Type} (o : option (list A)) : bool :=
  match o with Some (_ :: _) => true | _ => false end.

Definition arg_list (o : option (list string)) : list string :=
  match o with Some l => l | None => [] end.

(** ** The criteria filter *)

Definition filter_by_args (pol : HashPolicy) (meas_df : list MeasRow)
    (meta_df : list MetaRow) (args : Args) : result (list MeasRow * list MetaRow) :=
  '(meas_df, meta_df) <-
     (if truthy (uuids args) then
        m1 <- isin pol (map (fun r => PStr (uuid r)) meas_df) [py_strs (arg_list (uuids args))] ;;
        m2 <- isin pol (map (fun r => PStr (meta_uuid r)) meta_df) [py_strs (arg_list (uuids args))] ;;
        ret (loc meas_df m1, loc meta_df m2)
      else ret (meas_df, meta_df)) ;;
  meas_df <-
     (if truthy (types args) then
        m <- isin pol (map (fun r => PStr (measurement_type r)) meas_df) [py_strs (arg_list (types args))] ;;
        ret (loc meas_df m)
      else ret meas_df) ;;
  meas_df <-
     (if truthy (descriptions args) then
        m <- isin pol (map (fun r => py_opt (measurement_desc r)) meas_df) [py_strs (arg_list (descriptions args))] ;;
        ret (loc meas_df m)
      else ret meas_df) ;;
  match meas_df with
  | [] => raise NoDatabaseEntries
  | _ :: _ => ret (meas_df, meta_df)
  end.

(** ** The store *)

(** The two mapped classes of [e2ebench.datamodel], by the attributes the
    tool queries. *)
Module Measurement.
Record t : Type := mk {
  id : Z;
  benchmark_uuid : string;
  measurement_type : string;
  description : option string;
  datetime : timestamp;
  value : list Byte.byte;
  unit : string
}.
End Measurement.

Module BenchmarkMetadata.
Record t : Type := mk {
  uuid : string;
  description : option string;
  start_time : timestamp
}.
End BenchmarkMetadata.

(** What a session on the database file can be queried for. *)
Record Session : Type := mkSession {
  measurements : list Measurement.t;
  benchmark_metadata : list BenchmarkMetadata.t
}.

Definition create_dfs (session : Session) : list MeasRow * list MetaRow :=
  let meas_df :=
    map (fun m => mkMeasRow (Measurement.id m) (Measurement.benchmark_uuid m)
                    (Measurement.measurement_type m) (Measurement.description m))
        (measurements session) in
  let meta_df :=
    map (fun b => mkMetaRow (BenchmarkMetadata.uuid b) (BenchmarkMetadata.description b)
                    (BenchmarkMetadata.start_time b))
        (benchmark_metadata session) in
  (meas_df, meta_df).

(** ** The checkbox prompt *)

Inductive PromptItem (V : Type) : Type :=
| Separator (text : string)
| Choice (name : string) (value : V).
Arguments Separator {V} text.
Arguments Choice {V} name value.

(** The answer of a checkbox question: the values of the ticked choices, in
    the order they are presented.  [tick i] tells whether the entry at
    position [i] is ticked; a separator cannot be ticked. *)
Fixpoint checked_from {V : Type} (tick : nat -> bool) (i : nat)
    (items : list (PromptItem V)) : list V :=
  match items with
  | [] => []
  | Separator _ :: t => checked_from tick (S i) t
  | Choice _ v :: t =>
      if tick i then v :: checked_from tick (S i) t else checked_from tick (S i) t
  end.

(** What the user does with a checkbox question: ticks entries and confirms,
    or interrupts the prompt. *)
Inductive Reply : Type :=
| Confirm (tick : nat -> bool)
| Cancel.

(** The user sees the presented entries and decides. *)
Definition Answer (V : Type) : Type := list (PromptItem V) -> Reply.

(** [prompt(question)[name]] for a checkbox question.  The prompt library
    cannot draw a checkbox without entries and raises; an interrupted prompt
    returns the empty dict, in which the lookup of [name] fails; a confirmed
    prompt returns the values of the ticked choices under [name]. *)
Definition prompt {V : Type} (name : string) (answer : Answer V)
    (choices : list (PromptItem V)) : result (list V) :=
  match choices with
  | [] => raise EmptyChoices
  | _ :: _ =>
      match answer choices with
      | Confirm tick => ret (checked_from tick 0%nat choices)
      | Cancel => raise (KeyError name)
      end
  end.

(** One answer per question name. *)
Record User : Type := mkUser {
  answer_uuids : Answer string;
  answer_measurement_types : Answer (list Z);
  answer_descriptions : Answer (list Z)
}.

Definition tick_all {V : Type} : Answer V := fun _ => Confirm (fun _ => true).
Definition tick_none {V : Type} : Answer V := fun _ => Confirm (fun _ => false).

Definition all_ticked (reply : Reply) : Prop :=
  exists tick, reply = Confirm tick /\ forall i, tick i = true.

Definition nothing_ticked (reply : Reply) : Prop :=
  exists tick, reply = Confirm tick /\ forall i, tick i = false.

(** ** The interactive selector *)

Definition py_truthy (o : option string) : bool :=
  match o with
  | Some s => negb (String.eqb s "")
  | None => false
  end.

Definition uuid_choice (db_entry : MetaRow) : PromptItem string :=
  Choice (meta_uuid db_entry ++ ", " ++ meta_start_time db_entry ++
          (if py_truthy (meta_desc db_entry)
           then ", description: " ++ match meta_desc db_entry with Some d => d | None => "" end
           else ""))
         (meta_uuid db_entry).

Section Selector.
Variable pol : HashPolicy.

Definition prompt_for_uuid (user : User) (meas_df : list MeasRow) (meta_df : list MetaRow)
    : result (list MeasRow * list MetaRow) :=
  let prompt_choices := map uuid_choice meta_df in
  chosen_uuids <- prompt "uuids" (answer_uuids user) prompt_choices ;;
  m1 <- isin pol (map (fun r => PStr (uuid r)) meas_df) (map PStr chosen_uuids) ;;
  m2 <- isin pol (map (fun r => PStr (meta_uuid r)) meta_df) (map PStr chosen_uuids) ;;
  ret (loc meas_df m1, loc meta_df m2).

Definition type_choices (meas_df : list MeasRow) : list (PromptItem (list Z)) :=
  flat_map (fun '(uuid, uuid_group) =>
      Separator ("Available types for uuid " ++ uuid)
      :: map (fun '(meas_type, meas_type_group) => Choice meas_type (map id meas_type_group))
             (groupby String.eqb String.leb (fun r => Some (measurement_type r)) uuid_group))
    (groupby String.eqb String.leb (fun r => Some (uuid r)) meas_df).

Definition prompt_for_types (user : User) (meas_df : list MeasRow) : result (list MeasRow) :=
  prompt_res <- prompt "measurement_types" (answer_measurement_types user)
                  (type_choices meas_df) ;;
  let idx := concat prompt_res in
  m <- isin pol (map (fun r => PInt (id r)) meas_df) (map PInt idx) ;;
  ret (loc meas_df m).

Definition description_choices (meas_df : list MeasRow) : list (PromptItem (list Z)) :=
  flat_map (fun '((uuid, meas_type), u_t_group) =>
      Separator ("Available descriptions for uuid " ++ uuid ++ " and type " ++ meas_type)
      :: map (fun '(desc, desc_group) => Choice desc (map id desc_group))
             (groupby String.eqb String.leb measurement_desc u_t_group))
    (groupby pair_eqb pair_leb (fun r => Some (uuid r, measurement_type r)) meas_df).

Definition prompt_for_description (user : User) (meas_df : list MeasRow)
    : result (list MeasRow) :=
  prompt_res <- prompt "descriptions" (answer_descriptions user)
                  (description_choices meas_df) ;;
  let idx := concat prompt_res in
  m <- isin pol (map (fun r => PInt (id r)) meas_df) (map PInt idx) ;;
  ret (loc meas_df m).
End Selector.

(** ** The payload joiner *)

(** A row of [serialized_df] once the payload is unpickled and the [bytes]
    column dropped: columns id, measurement_time, measurement_unit,
    measurement_data. *)
Record SerializedRow (P : Type) : Type := mkSerializedRow {
  ser_id : Z;
  measurement_time : timestamp;
  measurement_unit : string;
  measurement_data : P
}.
Arguments mkSerializedRow {P}.
Arguments ser_id {P}.
Arguments measurement_time {P}.
Arguments measurement_unit {P}.
Arguments measurement_data {P}.

(** A row of the flat table handed to the visualizers. *)
Record FlatRecord (P : Type) : Type := mkFlatRecord {
  flat_index : MeasRow;
  flat_payload : SerializedRow P;
  flat_meta : MetaRow
}.
Arguments mkFlatRecord {P}.
Arguments flat_index {P}.
Arguments flat_payload {P}.
Arguments flat_meta {P}.

(** ** Figures *)

(** What a visualizer's [plot()] may hand back, and what iterating it can
    yield: a figure of one of the two plotting libraries, a string, or a
    list. *)
Inductive PyObj : Type :=
| Figure (lib : Backend) (handle : nat)
| Str (s : string)
| Seq (items : list PyObj).

(** [iter(o)].  A matplotlib figure is not iterable; a plotly figure iterates
    like a dict over its three top-level property names; a string iterates
    over its characters. *)
Definition py_iter (o : PyObj) : result (list PyObj) :=
  match o with
  | Seq items => ret items
  | Figure matplotlib _ => raise NotIterable
  | Figure plotly _ => ret [Str "data"; Str "layout"; Str "frames"]
  | Str s => ret (map (fun c => Str (String c "")) (list_ascii_of_string s))
  end.

(** The flattening of [figs] with [itertools.chain]: every collected plot
    result is iterated in turn. *)
Definition chain (figs : list PyObj) : result (list PyObj) :=
  parts <- mapM py_iter figs ;;
  ret (concat parts).

(** [fig.show()] *)
Definition show (fig : PyObj) : result unit :=
  match fig with
  | Figure _ _ => ret tt
  | _ => raise NoShowAttribute
  end.

Definition display (backend : Backend) (figs : list PyObj) : result unit :=
  match backend with
  | matplotlib => ret tt                        (* plt.show() *)
  | plotly => _ <- mapM show figs ;; ret tt
  end.

(** A Python dict with string keys; [d[k]] raises [KeyError] on a missing key. *)
Definition dict (V : Type) : Type := list (string * V).

Fixpoint getitem {V : Type} (d : dict V) (k : string) : result V :=
  match d with
  | [] => raise (KeyError k)
  | (k', v) :: d' => if String.eqb k k' then ret v else getitem d' k
  end.

Section Pipeline.
Variable pol : HashPolicy.

(** The payload type and [pickle.loads]; [None] stands for a payload that
    cannot be decoded. *)
Variable Payload : Type.
Variable pickle_loads : list Byte.byte -> option Payload.

(** A visualizer class: constructed on a group and a backend, then asked
    to [plot()]. *)
Definition VisualizerClass : Type :=
  list (FlatRecord Payload) -> Backend -> result PyObj.

Variable type_to_visualizer_class_mapper : dict VisualizerClass.

Definition unpickle_row (m : Measurement.t) : result (SerializedRow Payload) :=
  match pickle_loads (Measurement.value m) with
  | Some data =>
      ret (mkSerializedRow (Measurement.id m) (Measurement.datetime m)
             (Measurement.unit m) data)
  | None => raise UnpicklingError
  end.

Definition join_remaining_columns (meas_df : list MeasRow) (meta_df : list MetaRow)
    (session : Session) : result (list (FlatRecord Payload)) :=
  let serialized_query :=
    filter (fun m => existsb (Z.eqb (Measurement.id m)) (map id meas_df))
           (measurements session) in
  serialized_df <- mapM unpickle_row serialized_query ;;
  let meas_df := merge Z.eqb id ser_id pair meas_df serialized_df in
  let meas_df :=
    merge String.eqb (fun l => uuid (fst l)) meta_uuid
          (fun l r => mkFlatRecord (fst l) (snd l) r) meas_df meta_df in
  ret meas_df.

Definition render_group (backend : Backend)
    (group : string * list (FlatRecord Payload)) : result PyObj :=
  let '(meas_type, type_group_df) := group in
  VisualizerClass <- getitem type_to_visualizer_class_mapper meas_type ;;
  VisualizerClass type_group_df backend.

Definition type_groups (df : list (FlatRecord Payload))
    : list (string * list (FlatRecord Payload)) :=
  groupby String.eqb String.leb (fun r => Some (measurement_type (flat_index r))) df.

(** The loop of [main] over the groups and the display that follows; the
    figures that were shown are returned. *)
Definition dispatch (backend : Backend) (df : list (FlatRecord Payload))
    : result (list PyObj) :=
  figs <- mapM (render_group backend) (type_groups df) ;;
  figs <- chain figs ;;
  _ <- display backend figs ;;
  ret figs.

Definition select (args : Args) (user : User) (meas_df : list MeasRow)
    (meta_df : list MetaRow) : result (list MeasRow * list MetaRow) :=
  '(meas_df, meta_df) <-
     match uuids args with
     | None => prompt_for_uuid pol user meas_df meta_df
     | Some _ => ret (meas_df, meta_df)
     end ;;
  meas_df <-
     match types args with
     | None => prompt_for_types pol user meas_df
     | Some _ => ret meas_df
     end ;;
  meas_df <-
     match descriptions args with
     | None => prompt_for_description pol user meas_df
     | Some _ => ret meas_df
     end ;;
  ret (meas_df, meta_df).

(** [main], on the parsed arguments, the opened session and the user at
    the terminal.  A returned list is normal completion. *)
Definition main (args : Args) (session : Session) (user : User) : result (list PyObj) :=
  let '(meas_df, meta_df) := create_dfs session in
  '(meas_df, meta_df) <- filter_by_args pol meas_df meta_df args ;;
  '(meas_df, meta_df) <- select args user meas_df meta_df ;;
  df <- join_remaining_columns meas_df meta_df session ;;
  dispatch (plotting_backend args) df.
End Pipeline.

(** ** Scenarios *)

(** Two runs: run A with one latency and one memory measurement, run B with
    one latency measurement. *)
Definition scenario_session : Session :=
  mkSession
    [ Measurement.mk 1 "A" "latency" (Some "train") "2021-01-01 10:00" [Byte.x4b; Byte.x07; Byte.x2e] "s";
      Measurement.mk 2 "A" "memory" (Some "train") "2021-01-01 10:01" [Byte.x4b; Byte.x2a; Byte.x2e] "MB";
      Measurement.mk 3 "B" "latency" (Some "train") "2021-01-02 09:00" [Byte.x4b; Byte.x09; Byte.x2e] "s" ]
    [ BenchmarkMetadata.mk "A" (Some "first") "2021-01-01";
      BenchmarkMetadata.mk "B" None "2021-01-02" ].

Definition scenario_meas : list MeasRow := fst (create_dfs scenario_session).
Definition scenario_meta : list MetaRow := snd (create_dfs scenario_session).

Definition no_criteria (backend : Backend) : Args := mkArgs "db" None None None backend.

(** The error every call with a supplied criterion ends in. *)
Definition wrapped_lookup_error (pol : HashPolicy) : exn :=
  match pol with
  | SurfaceHashError => UnhashableType
  | CompareByEquality => NoDatabaseEntries
  end.

(** The criteria filter as the specification words it: each supplied
    criterion is a membership test on its column, the tests are combined
    conjunctively, the metadata table is restricted to the run ids that are
    left, and an empty result is an error. *)
Definition member (criterion : option (list string)) (cell : option string) : bool :=
  if truthy criterion then
    match cell with
    | Some s => existsb (String.eqb s) (arg_list criterion)
    | None => false
    end
  else true.

Definition matches_criteria (args : Args) (r : MeasRow) : bool :=
  member (uuids args) (Some (uuid r))
  && member (types args) (Some (measurement_type r))
  && member (descriptions args) (measurement_desc r).

Definition criteria_filter_spec (meas_df : list MeasRow) (meta_df : list MetaRow)
    (args : Args) : result (list MeasRow * list MetaRow) :=
  let meas_df := filter (matches_criteria args) meas_df in
  let meta_df := filter (fun b => existsb (String.eqb (meta_uuid b)) (map uuid meas_df)) meta_df in
  match meas_df with
  | [] => raise NoDatabaseEntries
  | _ :: _ => ret (meas_df, meta_df)
  end.

Definition opt_eqb (a b : option string) : bool :=
  match a, b with
  | Some s, Some t => String.eqb s t
  | None, None => true
  | _, _ => false
  end.

(** A criterion that is supplied and names no value of its column. *)
Definition criterion_misses (criterion : option (list string))
    (column : list (option string)) : bool :=
  truthy criterion
  && forallb (fun v => negb (existsb (opt_eqb (Some v)) column)) (arg_list criterion).

Definition some_criterion_misses (args : Args) (meas_df : list MeasRow) : bool :=
  criterion_misses (uuids args) (map (fun r => Some (uuid r)) meas_df)
  || criterion_misses (types args) (map (fun r => Some (measurement_type r)) meas_df)
  || criterion_misses (descriptions args) (map measurement_desc meas_df).

(** The metadata table names only runs that still have a measurement. *)
Definition meta_restricted (meas_df : list MeasRow) (meta_df : list MetaRow) : Prop :=
  forall b, In b meta_df -> In (meta_uuid b) (map uuid meas_df).

(** ** Auxiliary definitions *)

Definition one_run_measured : list MeasRow := [ mkMeasRow 1 "A" "latency" (Some "train") ].

Definition choice_values {V : Type} (items : list (PromptItem V)) : list V :=
  flat_map (fun it => match it with Choice _ v => [v] | Separator _ => [] end) items.

Definition keep_ids (idx : list Z) (meas_df : list MeasRow) : list MeasRow :=
  filter (fun r => existsb (Z.eqb (id r)) idx) meas_df.

Definition described_meas : list MeasRow :=
  [ mkMeasRow 1 "A" "latency" (Some "train");
    mkMeasRow 2 "A" "memory" None;
    mkMeasRow 3 "B" "latency" (Some "") ].

Definition full_user : User := mkUser tick_all tick_all tick_all.

(** The narrowing of the two tables to chosen run ids. *)
Definition keep_uuids (chosen : list string) (meas_df : list MeasRow) : list MeasRow :=
  filter (fun r => existsb (String.eqb (uuid r)) chosen) meas_df.

Definition keep_runs (chosen : list string) (meta_df : list MetaRow) : list MetaRow :=
  filter (fun b => existsb (String.eqb (meta_uuid b)) chosen) meta_df.

Definition no_descriptions_user : User := mkUser tick_all tick_all tick_none.

Definition no_uuids_user : User := mkUser tick_none tick_all tick_all.

(** The errors of the three prompts. *)
Definition prompt_errors (e : exn) : Prop :=
  e = EmptyChoices \/ e = KeyError "uuids" \/ e = KeyError "measurement_types"
  \/ e = KeyError "descriptions".

(** [filter_by_args] with the library call [Series.isin] left open: the
    same statements, with [lookup cells values] for [cells.isin(values)]. *)
Definition filter_by_args_with (lookup : list PyVal -> list PyVal -> result (list bool))
    (meas_df : list MeasRow) (meta_df : list MetaRow) (args : Args)
    : result (list MeasRow * list MetaRow) :=
  '(meas_df, meta_df) <-
     (if truthy (uuids args) then
        m1 <- lookup (map (fun r => PStr (uuid r)) meas_df) [py_strs (arg_list (uuids args))] ;;
        m2 <- lookup (map (fun r => PStr (meta_uuid r)) meta_df) [py_strs (arg_list (uuids args))] ;;
        ret (loc meas_df m1, loc meta_df m2)
      else ret (meas_df, meta_df)) ;;
  meas_df <-
     (if truthy (types args) then
        m <- lookup (map (fun r => PStr (measurement_type r)) meas_df) [py_strs (arg_list (types args))] ;;
        ret (loc meas_df m)
      else ret meas_df) ;;
  meas_df <-
     (if truthy (descriptions args) then
        m <- lookup (map (fun r => py_opt (measurement_desc r)) meas_df) [py_strs (arg_list (descriptions args))] ;;
        ret (loc meas_df m)
      else ret meas_df) ;;
  match meas_df with
  | [] => raise NoDatabaseEntries
  | _ :: _ => ret (meas_df, meta_df)
  end.

(** A lookup that searches inside a nested list, as the call sites of
    [filter_by_args] expect of [isin]. *)
Definition isin_nested (cells values : list PyVal) : result (list bool) :=
  isin CompareByEquality cells
    (flat_map (fun v => match v with PList items => items | _ => [v] end) values).

(** A decoder for the scenarios: the empty byte string is not a pickle,
    anything else decodes to itself. *)
Definition sample_loads (b : list Byte.byte) : option (list Byte.byte) :=
  match b with [] => None | _ :: _ => Some b end.

Definition scenario_df : list (FlatRecord (list Byte.byte)) :=
  match join_remaining_columns _ sample_loads scenario_meas scenario_meta scenario_session with
  | inr df => df
  | inl _ => []
  end.

(** Every joined column of a row holds a non-empty value. *)
Definition joined_columns_non_empty {P : Type} (o : FlatRecord P) : Prop :=
  measurement_time (flat_payload o) <> ""
  /\ measurement_unit (flat_payload o) <> ""
  /\ py_truthy (meta_desc (flat_meta o)) = true
  /\ meta_start_time (flat_meta o) <> "".

(** A visualizer whose [plot()] hands back one figure, and one whose
    [plot()] hands back a list of figures. *)
Definition single_figure {P : Type} (handle : nat) : VisualizerClass P :=
  fun _ backend => inr (Figure backend handle).

Definition figure_list {P : Type} (handles : list nat) : VisualizerClass P :=
  fun _ backend => inr (Seq (map (Figure backend) handles)).

Definition list_mapper : dict (VisualizerClass (list Byte.byte)) :=
  [ ("latency", figure_list [1%nat; 2%nat]); ("memory", figure_list [3%nat]) ].

Definition single_mapper : dict (VisualizerClass (list Byte.byte)) :=
  [ ("latency", single_figure 1%nat); ("memory", figure_list [3%nat]) ].

Definition latency_mapper : dict (VisualizerClass (list Byte.byte)) :=
  [ ("latency", figure_list [1%nat]) ].

Definition no_types_user : User := mkUser tick_all tick_none tick_all.

Definition choice_names {V : Type} (items : list (PromptItem V)) : list string :=
  flat_map (fun it => match it with Choice n _ => [n] | Separator _ => [] end) items.

(** The criteria that name what a user who ticks every entry has selected:
    the run ids, the measurement types and the descriptions behind the
    entries of the three prompts. *)
Definition full_selection_criteria (meas_df : list MeasRow) (meta_df : list MetaRow) : Args :=
  let chosen := choice_values (map uuid_choice meta_df) in
  let meas_df := filter (fun r => existsb (String.eqb (uuid r)) chosen) meas_df in
  let meas_types := choice_names (type_choices meas_df) in
  let meas_df := keep_ids (concat (choice_values (type_choices meas_df))) meas_df in
  let descs := choice_names (description_choices meas_df) in
  mkArgs "db" (Some chosen) (Some meas_types) (Some descs) matplotlib.

Definition described (r : MeasRow) : bool :=
  match measurement_desc r with Some _ => true | None => false end.

Definition has_metadata (meta_df : list MetaRow) (r : MeasRow) : bool :=
  existsb (String.eqb (uuid r)) (map meta_uuid meta_df).

(** A table in which a run has several measurements of one type. *)
Definition repeated_meas : list MeasRow :=
  [ mkMeasRow 1 "A" "latency" (Some "train");
    mkMeasRow 4 "A" "latency" (Some "train");
    mkMeasRow 5 "A" "latency" (Some "eval");
    mkMeasRow 2 "A" "memory" None ].

(** The two-run store with the payload of measurement 2 damaged. *)
Definition damaged_session : Session :=
  mkSession
    [ Measurement.mk 1 "A" "latency" (Some "train") "2021-01-01 10:00" [Byte.x4b; Byte.x07; Byte.x2e] "s";
      Measurement.mk 2 "A" "memory" (Some "train") "2021-01-01 10:01" [] "MB";
      Measurement.mk 3 "B" "latency" (Some "train") "2021-01-02 09:00" [Byte.x4b; Byte.x09; Byte.x2e] "s" ]
    [ BenchmarkMetadata.mk "A" (Some "first") "2021-01-01";
      BenchmarkMetadata.mk "B" None "2021-01-02" ].

Definition is_figure (o : PyObj) : bool :=
  match o with Figure _ _ => true | _ => false end.

(** The two-run metadata over a store that holds no measurement. *)
Definition empty_session : Session :=
  mkSession [] (benchmark_metadata scenario_session).

(** * Properties *)

(** ** Masks and membership *)

Lemma loc_map {R : Type} (p : R -> bool) (rows : list R) :
  loc rows (map p rows) = filter p rows.
Proof.
  induction rows as [|r rows IH]; simpl; [reflexivity|].
  rewrite IH. reflexivity.
Qed.

Lemma loc_nil {R : Type} (mask : list bool) : loc (@nil R) mask = [].
Proof. reflexivity. Qed.

Lemma filter_none {R : Type} (rows : list R) : filter (fun _ => false) rows = [].
Proof. induction rows; simpl; auto. Qed.

Lemma isin_hashable pol cells values :
  forallb hashable values = true ->
  forallb hashable cells = true ->
  isin pol cells values = inr (map (fun c => existsb (py_eq c) values) cells).
Proof.
  intros Hv Hc. destruct pol; unfold isin; simpl; [|reflexivity].
  rewrite Hv, Hc. reflexivity.
Qed.

Lemma hashable_strs (l : list string) : forallb hashable (map PStr l) = true.
Proof. induction l; simpl; auto. Qed.

Lemma hashable_ints (l : list Z) : forallb hashable (map PInt l) = true.
Proof. induction l; simpl; auto. Qed.

Lemma hashable_column {R : Type} (f : R -> PyVal) (rows : list R) :
  (forall r, hashable (f r) = true) -> forallb hashable (map f rows) = true.
Proof.
  intros H. induction rows; simpl; [reflexivity|].
  rewrite H. assumption.
Qed.

Lemma hashable_py_opt (o : option string) : hashable (py_opt o) = true.
Proof. destruct o; reflexivity. Qed.

Lemma existsb_py_str (s : string) (l : list string) :
  existsb (py_eq (PStr s)) (map PStr l) = existsb (String.eqb s) l.
Proof.
  induction l as [|a l IH]; [reflexivity|].
  cbn [map existsb]. rewrite IH. reflexivity.
Qed.

Lemma existsb_py_int (z : Z) (l : list Z) :
  existsb (py_eq (PInt z)) (map PInt l) = existsb (Z.eqb z) l.
Proof.
  induction l as [|a l IH]; [reflexivity|].
  cbn [map existsb]. rewrite IH. reflexivity.
Qed.

Lemma existsb_eqb_In (s : string) (l : list string) :
  existsb (String.eqb s) l = true <-> In s l.
Proof.
  rewrite existsb_exists. split.
  - intros [x [Hx He]]. apply String.eqb_eq in He. subst. assumption.
  - intros H. exists s. split; [assumption|apply String.eqb_refl].
Qed.

Lemma existsb_Zeqb_In (z : Z) (l : list Z) :
  existsb (Z.eqb z) l = true <-> In z l.
Proof.
  rewrite existsb_exists. split.
  - intros [x [Hx He]]. apply Z.eqb_eq in He. subst. assumption.
  - intros H. exists z. split; [assumption|apply Z.eqb_refl].
Qed.

(** A column of scalars looked up in a list that holds one list: the
    surfaced hashing error, or a mask that is [False] throughout. *)
Lemma isin_wrapped pol {R : Type} (f : R -> PyVal) (rows : list R) (l : list string) :
  (forall r, hashable (f r) = true) ->
  isin pol (map f rows) [py_strs l] =
  match pol with
  | SurfaceHashError => inl UnhashableType
  | CompareByEquality => inr (map (fun _ => false) rows)
  end.
Proof.
  intros H. destruct pol; unfold isin; simpl; [reflexivity|].
  f_equal. rewrite map_map. apply map_ext. intros r.
  specialize (H r). destruct (f r); simpl in *; try reflexivity. discriminate.
Qed.

(** ** The criteria filter *)

Lemma filter_by_args_supplied pol meas_df meta_df args :
  truthy (uuids args) || truthy (types args) || truthy (descriptions args) = true ->
  filter_by_args pol meas_df meta_df args = inl (wrapped_lookup_error pol).
Proof.
  intros H. unfold filter_by_args.
  destruct pol;
    destruct (truthy (uuids args)), (truthy (types args)), (truthy (descriptions args));
    try discriminate; cbn;
    repeat (rewrite isin_wrapped by (intros; try apply hashable_py_opt; reflexivity); cbn);
    rewrite ?loc_map, ?filter_none; reflexivity.
Qed.

Lemma filter_by_args_not_supplied pol meas_df meta_df args :
  truthy (uuids args) || truthy (types args) || truthy (descriptions args) = false ->
  filter_by_args pol meas_df meta_df args =
  match meas_df with
  | [] => inl NoDatabaseEntries
  | _ :: _ => inr (meas_df, meta_df)
  end.
Proof.
  intros H. apply orb_false_iff in H. destruct H as [H Hd].
  apply orb_false_iff in H. destruct H as [Hu Ht].
  unfold filter_by_args. rewrite Hu, Ht, Hd. simpl.
  destruct meas_df; reflexivity.
Qed.

(** C1 (the code departs from the claim).  In the scenario of two runs, run A
    with one latency and one memory measurement and run B with one latency
    measurement, [types = ["latency"]] should leave the two latency rows, and
    the membership filter of the specification does.  [filter_by_args] looks
    the column up in the list that holds the criterion list as its only
    element, so that no row passes and the call fails. *)
Theorem filter_by_args_types_latency :
  let args := mkArgs "db" None (Some ["latency"]) None matplotlib in
  (forall pol,
     filter_by_args pol scenario_meas scenario_meta args = inl (wrapped_lookup_error pol))
  /\ criteria_filter_spec scenario_meas scenario_meta args =
     inr ([ mkMeasRow 1 "A" "latency" (Some "train");
            mkMeasRow 3 "B" "latency" (Some "train") ],
          scenario_meta).
Proof.
  split.
  - intros pol. apply filter_by_args_supplied. reflexivity.
  - reflexivity.
Qed.

Lemma filter_by_args_nonempty pol meas_df meta_df args meta' :
  filter_by_args pol meas_df meta_df args <> inr ([], meta').
Proof.
  destruct (truthy (uuids args) || truthy (types args) || truthy (descriptions args)) eqn:E.
  - rewrite filter_by_args_supplied by assumption. discriminate.
  - rewrite filter_by_args_not_supplied by assumption.
    destruct meas_df; [discriminate|]. intros H. inversion H.
Qed.

(** C2 (the code departs from the claim).  With [run_ids = ["nonexistent"]],
    a criterion that names no run of the table, the membership filter of the
    specification ends in the "no database entries" error.  [filter_by_args]
    reaches its emptiness check only where the lookup of the nested list
    completes: where the hashing error is surfaced, that error is raised
    instead; where it is not, the "no database entries" error is raised, but
    just so for a run id that is in the table.  No call returns an empty
    measurement-index table. *)
Theorem filter_by_args_nonexistent_run :
  let args := mkArgs "db" (Some ["nonexistent"]) None None matplotlib in
  some_criterion_misses args scenario_meas = true
  /\ criteria_filter_spec scenario_meas scenario_meta args = inl NoDatabaseEntries
  /\ filter_by_args SurfaceHashError scenario_meas scenario_meta args = inl UnhashableType
  /\ filter_by_args CompareByEquality scenario_meas scenario_meta args
     = inl NoDatabaseEntries
  /\ filter_by_args CompareByEquality scenario_meas scenario_meta
       (mkArgs "db" (Some ["A"]) None None matplotlib) = inl NoDatabaseEntries
  /\ (forall pol meas_df meta_df args0 meta',
        filter_by_args pol meas_df meta_df args0 <> inr ([], meta')).
Proof.
  cbv zeta. repeat split; try reflexivity.
  intros. apply filter_by_args_nonempty.
Qed.

(** C4, as stated, fails: without criteria the metadata table comes back
    whole, run B included, although no measurement of run B is in the table;
    and with a type criterion alone, as soon as the lookup finds the rows
    of that type, run B stays in the metadata table although its only
    measurement is gone. *)
Lemma unmeasured_run_kept_in_meta :
  ~ (forall pol meas_df meta_df args meas' meta',
       filter_by_args pol meas_df meta_df args = inr (meas', meta') ->
       meta_restricted meas' meta')
  /\ filter_by_args_with isin_nested scenario_meas scenario_meta
       (mkArgs "db" None (Some ["memory"]) None matplotlib)
     = inr ([ mkMeasRow 2 "A" "memory" (Some "train") ], scenario_meta)
  /\ ~ meta_restricted [ mkMeasRow 2 "A" "memory" (Some "train") ] scenario_meta.
Proof.
  split; [|split; [reflexivity|]].
  - intros H.
    specialize (H CompareByEquality one_run_measured scenario_meta (no_criteria matplotlib)
                  one_run_measured scenario_meta eq_refl).
    specialize (H (mkMetaRow "B" None "2021-01-02")).
    simpl in H. destruct H as [H|H]; [right; left; reflexivity|discriminate|assumption].
  - intros H. specialize (H (mkMetaRow "B" None "2021-01-02")).
    simpl in H. destruct H as [H|H]; [right; left; reflexivity|discriminate|assumption].
Qed.

Lemma filter_by_args_with_isin pol meas_df meta_df args :
  filter_by_args pol meas_df meta_df args
  = filter_by_args_with (isin pol) meas_df meta_df args.
Proof. reflexivity. Qed.

Lemma loc_In {R : Type} (rows : list R) (mask : list bool) (r : R) :
  In r (loc rows mask) -> In r rows.
Proof.
  revert mask. induction rows as [|x rows IH]; intros mask; simpl; [tauto|].
  destruct mask as [|b mask]; simpl; [tauto|].
  destruct b; simpl; intros H.
  - destruct H as [H|H]; [auto|]. right. apply (IH mask). exact H.
  - right. apply (IH mask). exact H.
Qed.

(** C4, amended.  Whatever the lookups yield, the metadata table
    [filter_by_args] returns depends on the run-id criterion alone: without
    one it is the given metadata table, unchanged; with one it is the given
    metadata table under the mask of the run-id lookup on its own run-id
    column.  A type or description criterion and the run ids left in the
    narrowed measurement-index table have no part in it. *)
Theorem filter_by_args_meta (lookup : list PyVal -> list PyVal -> result (list bool))
    meas_df meta_df args meas' meta' :
  filter_by_args_with lookup meas_df meta_df args = inr (meas', meta') ->
  (forall b, In b meta' -> In b meta_df)
  /\ (truthy (uuids args) = false -> meta' = meta_df)
  /\ (truthy (uuids args) = true ->
      exists mask,
        lookup (map (fun r => PStr (meta_uuid r)) meta_df) [py_strs (arg_list (uuids args))]
          = inr mask
        /\ meta' = loc meta_df mask).
Proof.
  unfold filter_by_args_with. intros H.
  assert (Hmeta : (truthy (uuids args) = false /\ meta' = meta_df)
                  \/ (truthy (uuids args) = true /\
                      exists mask,
                        lookup (map (fun r => PStr (meta_uuid r)) meta_df)
                               [py_strs (arg_list (uuids args))] = inr mask
                        /\ meta' = loc meta_df mask)).
  { destruct (truthy (uuids args)).
    - right. split; [reflexivity|].
      destruct (lookup (map (fun r => PStr (uuid r)) meas_df) _) as [e|m1];
        cbn [bind Monad_either] in H; [discriminate|].
      destruct (lookup (map (fun r => PStr (meta_uuid r)) meta_df) _) as [e|m2];
        cbn [bind Monad_either ret] in H; [discriminate|].
      exists m2. split; [reflexivity|].
      destruct (truthy (types args));
        [destruct (lookup _ _) as [e|m3]; cbn [bind Monad_either ret] in H;
         [discriminate|]|cbn [bind Monad_either ret] in H];
        (destruct (truthy (descriptions args));
         [destruct (lookup _ _) as [e|m4]; cbn [bind Monad_either ret] in H;
          [discriminate|]|cbn [bind Monad_either ret] in H]);
        match type of H with
        | match ?t with _ => _ end = _ => destruct t; [discriminate|]
        end; inversion H; reflexivity.
    - left. split; [reflexivity|]. cbn [bind Monad_either ret] in H.
      destruct (truthy (types args));
        [destruct (lookup _ _) as [e|m3]; cbn [bind Monad_either ret] in H;
         [discriminate|]|cbn [bind Monad_either ret] in H];
        (destruct (truthy (descriptions args));
         [destruct (lookup _ _) as [e|m4]; cbn [bind Monad_either ret] in H;
          [discriminate|]|cbn [bind Monad_either ret] in H]);
        match type of H with
        | match ?t with _ => _ end = _ => destruct t; [discriminate|]
        end; inversion H; reflexivity. }
  destruct Hmeta as [[Hu ->]|[Hu [mask [Hl ->]]]].
  - split; [auto|]. split; [auto|]. congruence.
  - split; [intros b; apply loc_In|]. split; [congruence|]. intros _. eauto.
Qed.

Lemma filter_by_args_meta_witness :
  let args := mkArgs "db" (Some ["A"; "B"]) (Some ["memory"]) None matplotlib in
  (forall b, In b scenario_meta -> In b scenario_meta)
  /\ (truthy (uuids args) = false -> scenario_meta = scenario_meta)
  /\ (truthy (uuids args) = true ->
      exists mask,
        isin_nested (map (fun r => PStr (meta_uuid r)) scenario_meta)
          [py_strs (arg_list (uuids args))] = inr mask
        /\ scenario_meta = loc scenario_meta mask).
Proof.
  apply (filter_by_args_meta isin_nested scenario_meas scenario_meta
           (mkArgs "db" (Some ["A"; "B"]) (Some ["memory"]) None matplotlib)
           [ mkMeasRow 2 "A" "memory" (Some "train") ] scenario_meta).
  reflexivity.
Defined.

(** ** Grouping *)

Section GroupByFacts.
Context {R K : Type}.
Variable eqb : K -> K -> bool.
Variable leb : K -> K -> bool.
Hypothesis eqb_eq : forall a b, eqb a b = true <-> a = b.

Lemma insert_sorted_perm (k : K) (l : list K) :
  Permutation (insert_sorted leb k l) (k :: l).
Proof.
  induction l as [|h t IH]; simpl; [reflexivity|].
  destruct (leb k h); [reflexivity|].
  rewrite IH. apply perm_swap.
Qed.

Lemma sort_keys_perm (l : list K) : Permutation (sort_keys leb l) l.
Proof.
  induction l as [|k l IH]; simpl; [reflexivity|].
  rewrite insert_sorted_perm. apply perm_skip. exact IH.
Qed.

Lemma existsb_eqb (k : K) (l : list K) : existsb (eqb k) l = true <-> In k l.
Proof.
  rewrite existsb_exists. split.
  - intros [x [Hx He]]. apply eqb_eq in He. subst. assumption.
  - intros H. exists k. split; [assumption|]. apply eqb_eq. reflexivity.
Qed.

Lemma unique_In (k : K) (l : list K) : In k (unique eqb l) <-> In k l.
Proof.
  induction l as [|h t IH]; simpl; [tauto|].
  destruct (existsb (eqb h) t) eqn:E.
  - rewrite IH. split; [tauto|]. intros [->|H]; [|assumption].
    apply existsb_eqb. assumption.
  - simpl. rewrite IH. tauto.
Qed.

Lemma unique_NoDup (l : list K) : NoDup (unique eqb l).
Proof.
  induction l as [|h t IH]; simpl; [constructor|].
  destruct (existsb (eqb h) t) eqn:E; [assumption|].
  constructor; [|assumption].
  rewrite unique_In. intros H. apply existsb_eqb in H. congruence.
Qed.

Lemma dropna_In (k : K) (l : list (option K)) : In k (dropna l) <-> In (Some k) l.
Proof.
  induction l as [|[h|] t IH]; simpl.
  - tauto.
  - rewrite IH. split; intros [H|H]; auto; left; congruence.
  - rewrite IH. split; [tauto|]. intros [H|H]; [discriminate|assumption].
Qed.

Lemma group_keys_In (k : K) (l : list (option K)) :
  In k (group_keys eqb leb l) <-> In (Some k) l.
Proof.
  unfold group_keys. split; intros H.
  - apply dropna_In, unique_In.
    eapply Permutation_in; [apply sort_keys_perm|exact H].
  - apply dropna_In, unique_In in H.
    eapply Permutation_in; [symmetry; apply sort_keys_perm|exact H].
Qed.

Lemma group_keys_NoDup (l : list (option K)) : NoDup (group_keys eqb leb l).
Proof.
  unfold group_keys. eapply Permutation_NoDup.
  - symmetry. apply sort_keys_perm.
  - apply unique_NoDup.
Qed.

Variable key : R -> option K.

Lemma has_key_true (k : K) (r : R) : has_key eqb key k r = true <-> key r = Some k.
Proof.
  unfold has_key. destruct (key r) as [k'|].
  - rewrite eqb_eq. split; congruence.
  - split; discriminate.
Qed.

Lemma groupby_In (k : K) (g : list R) (rows : list R) :
  In (k, g) (groupby eqb leb key rows) <->
  In (Some k) (map key rows) /\ g = filter (has_key eqb key k) rows.
Proof.
  unfold groupby. rewrite in_map_iff. split.
  - intros [k' [E H]]. inversion E; subst. apply group_keys_In in H. auto.
  - intros [H ->]. exists k. split; [reflexivity|]. apply group_keys_In. exact H.
Qed.

Lemma groupby_keys (rows : list R) :
  map fst (groupby eqb leb key rows) = group_keys eqb leb (map key rows).
Proof. unfold groupby. rewrite map_map. simpl. apply map_id. Qed.

Lemma groupby_row (k : K) (g : list R) (rows : list R) (r : R) :
  In (k, g) (groupby eqb leb key rows) -> (In r g <-> In r rows /\ key r = Some k).
Proof.
  intros H. apply groupby_In in H. destruct H as [_ ->].
  rewrite filter_In, has_key_true. tauto.
Qed.

Lemma groupby_covers (rows : list R) (r : R) (k : K) :
  In r rows -> key r = Some k ->
  In (k, filter (has_key eqb key k) rows) (groupby eqb leb key rows).
Proof.
  intros Hr Hk. apply groupby_In. split; [|reflexivity].
  rewrite <- Hk. apply in_map. exact Hr.
Qed.

Lemma filter_split (p q : R -> bool) (rows : list R) :
  (forall r, In r rows -> p r = true -> q r = true -> False) ->
  Permutation (filter p rows ++ filter q rows) (filter (fun r => p r || q r) rows).
Proof.
  induction rows as [|r rows IH]; intros D; simpl; [reflexivity|].
  assert (IH' : Permutation (filter p rows ++ filter q rows)
                  (filter (fun r => p r || q r) rows)).
  { apply IH. intros r' Hr'. apply D. right. exact Hr'. }
  destruct (p r) eqn:Ep, (q r) eqn:Eq; simpl.
  - exfalso. apply (D r); auto. left. reflexivity.
  - apply perm_skip. exact IH'.
  - rewrite <- Permutation_middle. apply perm_skip. exact IH'.
  - exact IH'.
Qed.

Lemma groups_concat (ks : list K) (rows : list R) :
  NoDup ks ->
  Permutation (concat (map (fun k => filter (has_key eqb key k) rows) ks))
              (filter (fun r => existsb (fun k => has_key eqb key k r) ks) rows).
Proof.
  induction 1 as [|k ks Hk Hnd IH]; simpl.
  - rewrite filter_none. reflexivity.
  - rewrite IH. apply filter_split.
    intros r _ Hp Hq. apply has_key_true in Hp.
    apply existsb_exists in Hq. destruct Hq as [k' [Hin Hk']].
    apply has_key_true in Hk'. congruence.
Qed.

(** The groups partition the rows that have a key. *)
Lemma groupby_partition (rows : list R) :
  Permutation (concat (map snd (groupby eqb leb key rows))) (filter (keyed key) rows).
Proof.
  unfold groupby. rewrite map_map. simpl.
  rewrite groups_concat by apply group_keys_NoDup.
  erewrite filter_ext_in; [reflexivity|].
  intros r Hr. unfold keyed. destruct (key r) as [k|] eqn:E.
  - apply existsb_exists. exists k. split.
    + apply group_keys_In. rewrite <- E. apply in_map. exact Hr.
    + apply has_key_true. exact E.
  - apply not_true_is_false. intros H. apply existsb_exists in H.
    destruct H as [k [_ H]]. apply has_key_true in H. congruence.
Qed.
End GroupByFacts.

Section SortFacts.
Context {K : Type}.
Variable leb : K -> K -> bool.
Hypothesis leb_total : forall a b, leb a b = true \/ leb b a = true.

Lemma insert_sorted_hd (k h : K) (l : list K) :
  leb h k = true -> HdRel (fun a b => leb a b = true) h l ->
  HdRel (fun a b => leb a b = true) h (insert_sorted leb k l).
Proof.
  intros Hhk Hhd. destruct l as [|x l]; simpl; [constructor; exact Hhk|].
  destruct (leb k x); constructor; [exact Hhk|].
  inversion Hhd. assumption.
Qed.

Lemma insert_sorted_ascending (k : K) (l : list K) :
  Sorted (fun a b => leb a b = true) l ->
  Sorted (fun a b => leb a b = true) (insert_sorted leb k l).
Proof.
  induction 1 as [|h l Hs IH Hhd]; simpl; [repeat constructor|].
  destruct (leb k h) eqn:E.
  - constructor; [constructor; assumption|constructor; exact E].
  - constructor; [exact IH|]. apply insert_sorted_hd; [|exact Hhd].
    destruct (leb_total k h); congruence.
Qed.

(** The group keys come in ascending order. *)
Lemma sort_keys_ascending (l : list K) :
  Sorted (fun a b => leb a b = true) (sort_keys leb l).
Proof.
  induction l as [|k l IH]; simpl; [constructor|].
  apply insert_sorted_ascending. exact IH.
Qed.
End SortFacts.

Lemma type_groups_ascending (Payload : Type) (df : list (FlatRecord Payload)) :
  Sorted (fun a b => String.leb a b = true) (map fst (type_groups Payload df)).
Proof.
  unfold type_groups. rewrite groupby_keys. unfold group_keys.
  apply sort_keys_ascending. exact String.leb_total.
Qed.

Lemma pair_eqb_eq (a b : string * string) : pair_eqb a b = true <-> a = b.
Proof.
  destruct a as [a1 a2], b as [b1 b2]. unfold pair_eqb. simpl.
  rewrite andb_true_iff, !String.eqb_eq. split.
  - intros [-> ->]. reflexivity.
  - intros E. inversion E. auto.
Qed.

(** ** The error monad *)

Lemma mapM_In_inl {A B : Type} (f : A -> result B) (l : list A) (x : A) (e : exn) :
  In x l -> f x = inl e -> exists e', mapM f l = inl e'.
Proof.
  induction l as [|a l IH]; intros Hin Hx; [contradiction|].
  simpl. destruct (f a) as [e0|b] eqn:Ea; simpl.
  - eauto.
  - destruct Hin as [->|Hin]; [congruence|].
    destruct (IH Hin Hx) as [e' ->]. simpl. eauto.
Qed.

Lemma mapM_inl_source {A B : Type} (f : A -> result B) (l : list A) (e : exn) :
  mapM f l = inl e -> exists x, In x l /\ f x = inl e.
Proof.
  induction l as [|a l IH]; simpl; [discriminate|].
  destruct (f a) as [e0|b] eqn:Ea; simpl.
  - intros H. inversion H; subst. exists a. auto.
  - destruct (mapM f l) as [e1|bs]; simpl; [|discriminate].
    intros H. inversion H; subst.
    destruct (IH eq_refl) as [x [Hx Hfx]]. exists x. auto.
Qed.

Lemma mapM_inr_map {A B : Type} (f : A -> result B) (g : A -> B) (l : list A) :
  (forall x, In x l -> f x = inr (g x)) -> mapM f l = inr (map g l).
Proof.
  induction l as [|a l IH]; intros H; simpl; [reflexivity|].
  rewrite (H a) by (left; reflexivity). simpl.
  rewrite IH by (intros; apply H; right; assumption). reflexivity.
Qed.

Lemma getitem_inl {V : Type} (d : dict V) (k : string) (e : exn) :
  getitem d k = inl e -> e = KeyError k.
Proof.
  induction d as [|[k' v] d IH]; simpl.
  - intros H. inversion H. reflexivity.
  - destruct (String.eqb k k'); [discriminate|exact IH].
Qed.

(** ** The render dispatcher *)

(** C6.  The groups the dispatcher iterates over partition the joined table:
    put together they hold the rows of the table, each as often as the table
    does; every row of a group has the group's measurement type; the group
    keys are pairwise distinct, so that no row lies in two groups. *)
Theorem type_groups_partition (Payload : Type) (df : list (FlatRecord Payload)) :
  Permutation (concat (map snd (type_groups Payload df))) df
  /\ NoDup (map fst (type_groups Payload df))
  /\ (forall k g r, In (k, g) (type_groups Payload df) -> In r g ->
        In r df /\ measurement_type (flat_index r) = k)
  /\ (forall k1 g1 k2 g2 r,
        In (k1, g1) (type_groups Payload df) -> In (k2, g2) (type_groups Payload df) ->
        In r g1 -> In r g2 -> (k1, g1) = (k2, g2)).
Proof.
  unfold type_groups.
  set (key := fun r : FlatRecord Payload => Some (measurement_type (flat_index r))).
  assert (Hrow : forall k g r, In (k, g) (groupby String.eqb String.leb key df) ->
                   In r g -> In r df /\ measurement_type (flat_index r) = k).
  { intros k g r Hg Hr.
    apply (groupby_row String.eqb String.leb String.eqb_eq key k g df r Hg) in Hr.
    destruct Hr as [Hr Hk]. unfold key in Hk. split; congruence. }
  repeat split.
  - rewrite (groupby_partition String.eqb String.leb String.eqb_eq key).
    rewrite (filter_ext (keyed key) (fun _ => true)) by reflexivity.
    clear. induction df as [|r df IH]; simpl; [reflexivity|]. apply perm_skip. exact IH.
  - rewrite groupby_keys. apply group_keys_NoDup. exact String.eqb_eq.
  - apply (Hrow k g r H H0).
  - apply (Hrow k g r H H0).
  - intros k1 g1 k2 g2 r H1 H2 Hr1 Hr2.
    destruct (Hrow _ _ _ H1 Hr1) as [_ E1]. destruct (Hrow _ _ _ H2 Hr2) as [_ E2].
    subst k2.
    apply (groupby_In String.eqb String.leb String.eqb_eq key) in H1, H2.
    destruct H1 as [_ ->]. destruct H2 as [_ ->]. rewrite E1. reflexivity.
Qed.

Section Dispatch.
Variable Payload : Type.
Variable mapper : dict (VisualizerClass Payload).
Variable backend : Backend.

Lemma type_group_of_row (df : list (FlatRecord Payload)) (r : FlatRecord Payload) :
  In r df ->
  exists g, In (measurement_type (flat_index r), g) (type_groups Payload df).
Proof.
  intros Hr. eexists.
  apply (groupby_covers String.eqb String.leb String.eqb_eq
           (fun r => Some (measurement_type (flat_index r))) df r _ Hr eq_refl).
Qed.

Lemma type_group_key (df : list (FlatRecord Payload)) (k : string) g :
  In (k, g) (type_groups Payload df) ->
  exists r, In r df /\ measurement_type (flat_index r) = k.
Proof.
  intros H. apply (groupby_In String.eqb String.leb String.eqb_eq) in H.
  destruct H as [H _]. apply in_map_iff in H. destruct H as [r [E Hr]].
  exists r. split; [assumption|congruence].
Qed.

Lemma dispatch_render_error (df : list (FlatRecord Payload)) (e : exn) :
  mapM (render_group Payload mapper backend) (type_groups Payload df) = inl e ->
  dispatch Payload mapper backend df = inl e.
Proof. intros H. unfold dispatch. rewrite H. reflexivity. Qed.

(** C8.  When the joined table holds a measurement type without an entry
    in the type-to-visualizer mapping, the dispatcher fails: it never
    completes with that group left out.  Unless a registered visualizer
    raises first, the failure is the [KeyError] of the lookup of an
    unregistered type of the table. *)
Theorem dispatch_unregistered (df : list (FlatRecord Payload)) (r : FlatRecord Payload) :
  In r df ->
  getitem mapper (measurement_type (flat_index r))
    = inl (KeyError (measurement_type (flat_index r))) ->
  exists e,
    dispatch Payload mapper backend df = inl e
    /\ ((forall k V g, getitem mapper k = inr V -> succeeded (V g backend) = true) ->
        exists r', In r' df
                   /\ e = KeyError (measurement_type (flat_index r'))
                   /\ getitem mapper (measurement_type (flat_index r')) = inl e).
Proof.
  intros Hr Hk.
  destruct (type_group_of_row df r Hr) as [g Hg].
  assert (Hf : render_group Payload mapper backend (measurement_type (flat_index r), g)
               = inl (KeyError (measurement_type (flat_index r)))).
  { unfold render_group. rewrite Hk. reflexivity. }
  destruct (mapM_In_inl _ _ _ _ Hg Hf) as [e He].
  exists e. split; [apply dispatch_render_error; exact He|].
  intros Htotal.
  apply mapM_inl_source in He. destruct He as [[k g'] [Hin Hx]].
  destruct (type_group_key df k g' Hin) as [r' [Hr' Ek]].
  exists r'. split; [exact Hr'|].
  unfold render_group in Hx.
  destruct (getitem mapper k) as [e0|V] eqn:Eg; simpl in Hx.
  - inversion Hx; subst e0. apply getitem_inl in Eg as Ee.
    rewrite Ek. split; [exact Ee|exact Eg].
  - specialize (Htotal k V g' Eg). rewrite Hx in Htotal. discriminate.
Qed.
End Dispatch.

(** ** The checkbox prompt *)

Lemma checked_from_none {V : Type} (tick : nat -> bool) (i : nat) (items : list (PromptItem V)) :
  (forall j, tick j = false) -> checked_from tick i items = [].
Proof.
  intros H. revert i. induction items as [|[t|n v] items IH]; intros i; simpl; auto.
  rewrite H. apply IH.
Qed.

Lemma checked_from_all {V : Type} (tick : nat -> bool) (i : nat) (items : list (PromptItem V)) :
  (forall j, tick j = true) -> checked_from tick i items = choice_values items.
Proof.
  intros H. revert i. induction items as [|[t|n v] items IH]; intros i; simpl; auto.
  rewrite H. f_equal. apply IH.
Qed.

Lemma checked_from_In {V : Type} (tick : nat -> bool) (i : nat) (items : list (PromptItem V))
    (v : V) :
  In v (checked_from tick i items) -> In v (choice_values items).
Proof.
  revert i. induction items as [|[t|n w] items IH]; intros i; simpl; eauto.
  destruct (tick i); simpl; intros H.
  - destruct H as [H|H]; eauto.
  - eauto.
Qed.

Lemma choice_values_In {V : Type} (items : list (PromptItem V)) (v : V) :
  In v (choice_values items) <-> exists name, In (Choice name v) items.
Proof.
  unfold choice_values. rewrite in_flat_map. split.
  - intros [[t|n w] [Hin Hv]]; simpl in Hv; [contradiction|].
    destruct Hv as [<-|[]]. eauto.
  - intros [name H]. exists (Choice name v). split; [assumption|left; reflexivity].
Qed.

Lemma prompt_inr {V : Type} (name : string) (answer : Answer V)
    (choices : list (PromptItem V)) (vs : list V) :
  prompt name answer choices = inr vs ->
  exists tick, answer choices = Confirm tick
               /\ vs = checked_from tick 0%nat choices /\ choices <> [].
Proof.
  unfold prompt. destruct choices as [|c choices]; [discriminate|].
  destruct (answer (c :: choices)) as [tick|]; [|discriminate].
  intros H. inversion H. exists tick. repeat split. discriminate.
Qed.

Lemma prompt_confirm {V : Type} (name : string) (answer : Answer V)
    (choices : list (PromptItem V)) (tick : nat -> bool) :
  choices <> [] -> answer choices = Confirm tick ->
  prompt name answer choices = inr (checked_from tick 0%nat choices).
Proof.
  intros Hne Ha. unfold prompt. destruct choices; [congruence|].
  rewrite Ha. reflexivity.
Qed.

Lemma prompt_error {V : Type} (name : string) (answer : Answer V)
    (choices : list (PromptItem V)) (e : exn) :
  prompt name answer choices = inl e -> e = EmptyChoices \/ e = KeyError name.
Proof.
  unfold prompt. destruct choices as [|c choices].
  - intros H. inversion H. auto.
  - destruct (answer (c :: choices)); [discriminate|].
    intros H. inversion H. auto.
Qed.

Lemma prompt_In {V : Type} (name : string) (answer : Answer V)
    (choices : list (PromptItem V)) (vs : list V) (v : V) :
  prompt name answer choices = inr vs -> In v vs ->
  exists n, In (Choice n v) choices.
Proof.
  intros H Hv. apply prompt_inr in H. destruct H as [tick [_ [-> _]]].
  apply choice_values_In. eapply checked_from_In. exact Hv.
Qed.

Lemma NoDup_map_inj {A B : Type} (f : A -> B) (l : list A) (a b : A) :
  NoDup (map f l) -> In a l -> In b l -> f a = f b -> a = b.
Proof.
  induction l as [|x l IH]; simpl; intros Hnd Ha Hb E; [contradiction|].
  inversion Hnd as [|? ? Hx Hnd']; subst.
  destruct Ha as [->|Ha], Hb as [->|Hb]; auto.
  - exfalso. apply Hx. rewrite E. apply in_map. exact Hb.
  - exfalso. apply Hx. rewrite <- E. apply in_map. exact Ha.
Qed.

(** ** The interactive selector *)

Section SelectorFacts.
Variable pol : HashPolicy.
Variable user : User.

(** The lookups of the three stages are on strings and integers and cannot
    fail: a stage fails only where its prompt does. *)
Lemma prompt_for_uuid_eq (meas_df : list MeasRow) (meta_df : list MetaRow) :
  prompt_for_uuid pol user meas_df meta_df =
  (chosen <- prompt "uuids" (answer_uuids user) (map uuid_choice meta_df) ;;
   ret (keep_uuids chosen meas_df, keep_runs chosen meta_df)).
Proof.
  unfold prompt_for_uuid. cbv zeta.
  destruct (prompt "uuids" (answer_uuids user) (map uuid_choice meta_df)) as [e|chosen];
    [reflexivity|].
  cbn [bind Monad_either].
  rewrite !isin_hashable
    by (try apply hashable_strs; apply hashable_column; reflexivity).
  cbn. rewrite !map_map, !loc_map. unfold keep_uuids, keep_runs. do 2 f_equal.
  - apply filter_ext. intros r. apply existsb_py_str.
  - apply filter_ext. intros r. apply existsb_py_str.
Qed.

Lemma keep_ids_eq (idx : list Z) (meas_df : list MeasRow) :
  (m <- isin pol (map (fun r => PInt (id r)) meas_df) (map PInt idx) ;;
   ret (loc meas_df m)) = inr (keep_ids idx meas_df).
Proof.
  rewrite isin_hashable
    by (try apply hashable_ints; apply hashable_column; reflexivity).
  cbn. rewrite map_map, loc_map. f_equal.
  apply filter_ext. intros r. apply existsb_py_int.
Qed.

Lemma prompt_for_types_eq (meas_df : list MeasRow) :
  prompt_for_types pol user meas_df =
  (res <- prompt "measurement_types" (answer_measurement_types user)
            (type_choices meas_df) ;;
   ret (keep_ids (concat res) meas_df)).
Proof.
  unfold prompt_for_types.
  destruct (prompt "measurement_types" _ _) as [e|res]; [reflexivity|].
  cbn [bind Monad_either]. cbv zeta. apply keep_ids_eq.
Qed.

Lemma prompt_for_description_eq (meas_df : list MeasRow) :
  prompt_for_description pol user meas_df =
  (res <- prompt "descriptions" (answer_descriptions user)
            (description_choices meas_df) ;;
   ret (keep_ids (concat res) meas_df)).
Proof.
  unfold prompt_for_description.
  destruct (prompt "descriptions" _ _) as [e|res]; [reflexivity|].
  cbn [bind Monad_either]. cbv zeta. apply keep_ids_eq.
Qed.

Lemma prompt_for_uuid_inr (meas_df : list MeasRow) (meta_df : list MetaRow) out :
  prompt_for_uuid pol user meas_df meta_df = inr out ->
  exists chosen,
    prompt "uuids" (answer_uuids user) (map uuid_choice meta_df) = inr chosen
    /\ out = (keep_uuids chosen meas_df, keep_runs chosen meta_df).
Proof.
  rewrite prompt_for_uuid_eq.
  destruct (prompt "uuids" _ _) as [e|chosen]; cbn; [discriminate|].
  intros H. inversion H. eauto.
Qed.

Lemma prompt_for_types_inr (meas_df out : list MeasRow) :
  prompt_for_types pol user meas_df = inr out ->
  exists res,
    prompt "measurement_types" (answer_measurement_types user) (type_choices meas_df)
      = inr res
    /\ out = keep_ids (concat res) meas_df.
Proof.
  rewrite prompt_for_types_eq.
  destruct (prompt "measurement_types" _ _) as [e|res]; cbn; [discriminate|].
  intros H. inversion H. eauto.
Qed.

Lemma prompt_for_description_inr (meas_df out : list MeasRow) :
  prompt_for_description pol user meas_df = inr out ->
  exists res,
    prompt "descriptions" (answer_descriptions user) (description_choices meas_df)
      = inr res
    /\ out = keep_ids (concat res) meas_df.
Proof.
  rewrite prompt_for_description_eq.
  destruct (prompt "descriptions" _ _) as [e|res]; cbn; [discriminate|].
  intros H. inversion H. eauto.
Qed.
End SelectorFacts.

Lemma keep_ids_In (idx : list Z) (meas_df : list MeasRow) (r : MeasRow) :
  In r (keep_ids idx meas_df) <-> In r meas_df /\ In (id r) idx.
Proof. unfold keep_ids. rewrite filter_In, existsb_Zeqb_In. tauto. Qed.

Lemma description_choice_ids (meas_df : list MeasRow) (name : string) (ids : list Z) (i : Z) :
  In (Choice name ids) (description_choices meas_df) -> In i ids ->
  exists r, In r meas_df /\ id r = i /\ measurement_desc r = Some name.
Proof.
  unfold description_choices. rewrite in_flat_map.
  intros [[[u t] g] [Hg Hc]] Hi. simpl in Hc.
  destruct Hc as [Hc|Hc]; [discriminate|].
  apply in_map_iff in Hc. destruct Hc as [[d dg] [E Hdg]].
  inversion E; subst.
  apply in_map_iff in Hi. destruct Hi as [r [Ei Hr]].
  apply (groupby_row String.eqb String.leb String.eqb_eq _ _ _ _ r Hdg) in Hr.
  destruct Hr as [Hr Hd].
  apply (groupby_row pair_eqb pair_leb pair_eqb_eq _ _ _ _ r Hg) in Hr.
  exists r. tauto.
Qed.

Lemma description_choice_of_row (meas_df : list MeasRow) (r : MeasRow) (d : string) :
  In r meas_df -> measurement_desc r = Some d ->
  exists ids, In (Choice d ids) (description_choices meas_df) /\ In (id r) ids.
Proof.
  intros Hr Hd.
  set (key := fun r : MeasRow => Some (uuid r, measurement_type r)).
  set (g := filter (has_key pair_eqb key (uuid r, measurement_type r)) meas_df).
  assert (Hg : In ((uuid r, measurement_type r), g) (groupby pair_eqb pair_leb key meas_df)).
  { apply (groupby_covers pair_eqb pair_leb pair_eqb_eq key meas_df r); auto. }
  assert (Hrg : In r g).
  { apply (groupby_row pair_eqb pair_leb pair_eqb_eq key _ _ _ r Hg). auto. }
  exists (map id (filter (has_key String.eqb measurement_desc d) g)). split.
  - unfold description_choices. apply in_flat_map.
    exists ((uuid r, measurement_type r), g). split; [exact Hg|].
    simpl. right. apply in_map_iff.
    exists (d, filter (has_key String.eqb measurement_desc d) g). split; [reflexivity|].
    apply (groupby_covers String.eqb String.leb String.eqb_eq measurement_desc g r); auto.
  - apply in_map. apply filter_In. split; [exact Hrg|].
    apply has_key_true; [exact String.eqb_eq|exact Hd].
Qed.

Lemma prompt_tick_all {V : Type} (name : string) (answer : Answer V)
    (choices : list (PromptItem V)) :
  choices <> [] -> all_ticked (answer choices) ->
  prompt name answer choices = inr (choice_values choices).
Proof.
  intros Hne [tick [Ha Ht]]. rewrite (prompt_confirm name answer choices tick Hne Ha).
  f_equal. apply checked_from_all. exact Ht.
Qed.

Lemma prompt_tick_none {V : Type} (name : string) (answer : Answer V)
    (choices : list (PromptItem V)) :
  choices <> [] -> nothing_ticked (answer choices) ->
  prompt name answer choices = inr [].
Proof.
  intros Hne [tick [Ha Ht]]. rewrite (prompt_confirm name answer choices tick Hne Ha).
  f_equal. apply checked_from_none. exact Ht.
Qed.

Lemma description_choices_nonempty (meas_df : list MeasRow) :
  meas_df <> [] -> description_choices meas_df <> [].
Proof.
  destruct meas_df as [|r rest]; [congruence|]. intros _ H.
  assert (Hg : In ((uuid r, measurement_type r),
                   filter (has_key pair_eqb (fun r => Some (uuid r, measurement_type r))
                             (uuid r, measurement_type r)) (r :: rest))
                  (groupby pair_eqb pair_leb (fun r => Some (uuid r, measurement_type r))
                     (r :: rest))).
  { apply (groupby_covers pair_eqb pair_leb pair_eqb_eq _ (r :: rest) r);
      [left|]; reflexivity. }
  unfold description_choices in H.
  assert (Hs : In (@Separator (list Z)
                     ("Available descriptions for uuid " ++ uuid r ++ " and type "
                      ++ measurement_type r))
                  (@nil (PromptItem (list Z)))).
  { rewrite <- H. apply in_flat_map. eexists. split; [exact Hg|]. left. reflexivity. }
  contradiction.
Qed.

Lemma type_choices_nonempty (meas_df : list MeasRow) :
  meas_df <> [] -> type_choices meas_df <> [].
Proof.
  destruct meas_df as [|r rest]; [congruence|]. intros _ H.
  assert (Hg : In (uuid r, filter (has_key String.eqb (fun r => Some (uuid r)) (uuid r))
                             (r :: rest))
                  (groupby String.eqb String.leb (fun r => Some (uuid r)) (r :: rest))).
  { apply (groupby_covers String.eqb String.leb String.eqb_eq _ (r :: rest) r);
      [left|]; reflexivity. }
  unfold type_choices in H.
  assert (Hs : In (@Separator (list Z) ("Available types for uuid " ++ uuid r))
                  (@nil (PromptItem (list Z)))).
  { rewrite <- H. apply in_flat_map. eexists. split; [exact Hg|]. left. reflexivity. }
  contradiction.
Qed.

(** C10.  With unique row ids, a row whose description is null is behind no
    entry of the description prompt and is in no table the stage returns,
    whatever the user ticks; a row whose description is the empty string is
    behind an entry named by the empty string and is kept when the entries
    are ticked.  In both cases the stage returns whenever the user confirms
    the prompt. *)
Theorem prompt_for_description_null pol (meas_df : list MeasRow) :
  NoDup (map id meas_df) ->
  (forall r, In r meas_df -> measurement_desc r = None ->
     (forall name ids, In (Choice name ids) (description_choices meas_df) ->
        ~ In (id r) ids)
     /\ (forall user out,
           prompt_for_description pol user meas_df = inr out -> ~ In r out)
     /\ (forall user tick,
           answer_descriptions user (description_choices meas_df) = Confirm tick ->
           exists out, prompt_for_description pol user meas_df = inr out))
  /\ (forall r, In r meas_df -> measurement_desc r = Some "" ->
     (exists ids, In (Choice "" ids) (description_choices meas_df) /\ In (id r) ids)
     /\ (forall user,
           all_ticked (answer_descriptions user (description_choices meas_df)) ->
           exists out, prompt_for_description pol user meas_df = inr out /\ In r out)).
Proof.
  intros Hnd. split; intros r Hr Hd.
  - assert (Hno : forall name ids, In (Choice name ids) (description_choices meas_df) ->
                    ~ In (id r) ids).
    { intros name ids Hc Hi.
      destruct (description_choice_ids _ _ _ _ Hc Hi) as [r' [Hr' [Ei Hd']]].
      assert (r' = r) by (apply (NoDup_map_inj id meas_df); assumption).
      subst r'. congruence. }
    split; [exact Hno|]. split.
    + intros user out Hout.
      apply prompt_for_description_inr in Hout. destruct Hout as [res [Hres ->]].
      rewrite keep_ids_In. intros [_ Hi].
      apply in_concat in Hi. destruct Hi as [ids [Hids Hi]].
      destruct (prompt_In _ _ _ _ _ Hres Hids) as [name Hc].
      apply (Hno name ids Hc Hi).
    + intros user tick Ha. rewrite prompt_for_description_eq.
      rewrite (prompt_confirm _ _ _ tick); [eexists; reflexivity| |exact Ha].
      apply description_choices_nonempty. intros ->. contradiction.
  - destruct (description_choice_of_row _ _ _ Hr Hd) as [ids [Hc Hi]].
    split; [exists ids; auto|].
    intros user Hall. rewrite prompt_for_description_eq.
    rewrite prompt_tick_all;
      [|apply description_choices_nonempty; intros ->; contradiction|exact Hall].
    eexists. split; [reflexivity|].
    rewrite keep_ids_In. split; [exact Hr|].
    apply in_concat. exists ids. split; [|exact Hi].
    apply choice_values_In. exists "". exact Hc.
Qed.

Lemma prompt_for_description_null_witness :
  (forall r, In r described_meas -> measurement_desc r = None ->
     (forall name ids, In (Choice name ids) (description_choices described_meas) ->
        ~ In (id r) ids)
     /\ (forall user out,
           prompt_for_description CompareByEquality user described_meas = inr out ->
           ~ In r out)
     /\ (forall user tick,
           answer_descriptions user (description_choices described_meas) = Confirm tick ->
           exists out,
             prompt_for_description CompareByEquality user described_meas = inr out))
  /\ (forall r, In r described_meas -> measurement_desc r = Some "" ->
     (exists ids, In (Choice "" ids) (description_choices described_meas) /\ In (id r) ids)
     /\ (forall user,
           all_ticked (answer_descriptions user (description_choices described_meas)) ->
           exists out,
             prompt_for_description CompareByEquality user described_meas = inr out
             /\ In r out)).
Proof.
  apply (prompt_for_description_null CompareByEquality described_meas).
  repeat constructor; simpl; intuition discriminate.
Defined.

Example described_choices :
  description_choices described_meas =
  [ Separator "Available descriptions for uuid A and type latency";
    Choice "train" [1];
    Separator "Available descriptions for uuid A and type memory";
    Separator "Available descriptions for uuid B and type latency";
    Choice "" [3] ].
Proof. reflexivity. Qed.

Example described_full_selection :
  prompt_for_description CompareByEquality full_user described_meas =
  inr [ mkMeasRow 1 "A" "latency" (Some "train"); mkMeasRow 3 "B" "latency" (Some "") ].
Proof. reflexivity. Qed.

(** ** The whole run *)

Lemma keep_no_ids (meas_df : list MeasRow) : keep_ids [] meas_df = [].
Proof. unfold keep_ids. simpl. apply filter_none. Qed.

Lemma keep_no_uuids (meas_df : list MeasRow) : keep_uuids [] meas_df = [].
Proof. unfold keep_uuids. simpl. apply filter_none. Qed.

Lemma keep_no_runs (meta_df : list MetaRow) : keep_runs [] meta_df = [].
Proof. unfold keep_runs. simpl. apply filter_none. Qed.

Section MainFacts.
Variable pol : HashPolicy.
Variable Payload : Type.
Variable pickle_loads : list Byte.byte -> option Payload.
Variable mapper : dict (VisualizerClass Payload).

Lemma join_remaining_columns_nil (meta_df : list MetaRow) (session : Session) :
  join_remaining_columns Payload pickle_loads [] meta_df session = inr [].
Proof.
  unfold join_remaining_columns. simpl. rewrite filter_none. reflexivity.
Qed.

Lemma dispatch_nil (backend : Backend) : dispatch Payload mapper backend [] = inr [].
Proof. destruct backend; reflexivity. Qed.

(** [main] once the criteria filter has returned and every stage is run. *)
Lemma main_interactive (args : Args) (session : Session) (user : User)
    (meas_df : list MeasRow) (meta_df : list MetaRow) :
  filter_by_args pol (fst (create_dfs session)) (snd (create_dfs session)) args
    = inr (meas_df, meta_df) ->
  uuids args = None -> types args = None -> descriptions args = None ->
  main pol Payload pickle_loads mapper args session user =
  ('(m1, meta1) <- prompt_for_uuid pol user meas_df meta_df ;;
   m2 <- prompt_for_types pol user m1 ;;
   m3 <- prompt_for_description pol user m2 ;;
   df <- join_remaining_columns Payload pickle_loads m3 meta1 session ;;
   dispatch Payload mapper (plotting_backend args) df).
Proof.
  intros Hf Hu Ht Hd. unfold main, create_dfs in *. cbn [fst snd] in Hf.
  rewrite Hf. cbn [bind Monad_either]. unfold select. rewrite Hu, Ht, Hd.
  destruct (prompt_for_uuid pol user meas_df meta_df) as [e|[m1 meta1]];
    cbn [bind Monad_either]; [reflexivity|].
  destruct (prompt_for_types pol user m1) as [e|m2]; cbn [bind Monad_either];
    [reflexivity|].
  destruct (prompt_for_description pol user m2) as [e|m3]; reflexivity.
Qed.

(** C9, amended.  Once the criteria filter has returned and the three
    stages are run: an empty selection at the description stage leaves an
    empty table on which the payload join and the dispatch go through, no
    figure is produced and [main] completes normally; an empty selection at
    the run-id stage or at the measurement-type stage leaves an empty table
    too, but the next prompt is then opened without entries and [main] ends
    in the error of that prompt. *)
Theorem main_empty_selection (args : Args) (session : Session) (user : User)
    (meas_df : list MeasRow) (meta_df : list MetaRow) :
  filter_by_args pol (fst (create_dfs session)) (snd (create_dfs session)) args
    = inr (meas_df, meta_df) ->
  uuids args = None -> types args = None -> descriptions args = None ->
  (meta_df <> [] ->
   nothing_ticked (answer_uuids user (map uuid_choice meta_df)) ->
   prompt_for_uuid pol user meas_df meta_df = inr ([], [])
   /\ main pol Payload pickle_loads mapper args session user = inl EmptyChoices)
  /\ (forall m1 meta1,
        prompt_for_uuid pol user meas_df meta_df = inr (m1, meta1) ->
        m1 <> [] ->
        nothing_ticked (answer_measurement_types user (type_choices m1)) ->
        prompt_for_types pol user m1 = inr []
        /\ main pol Payload pickle_loads mapper args session user = inl EmptyChoices)
  /\ (forall m1 meta1 m2,
        prompt_for_uuid pol user meas_df meta_df = inr (m1, meta1) ->
        prompt_for_types pol user m1 = inr m2 ->
        m2 <> [] ->
        nothing_ticked (answer_descriptions user (description_choices m2)) ->
        prompt_for_description pol user m2 = inr []
        /\ join_remaining_columns Payload pickle_loads [] meta1 session = inr []
        /\ dispatch Payload mapper (plotting_backend args) [] = inr []
        /\ main pol Payload pickle_loads mapper args session user = inr []).
Proof.
  intros Hf Hu Ht Hd.
  rewrite (main_interactive args session user meas_df meta_df Hf Hu Ht Hd).
  assert (Hnil : prompt_for_types pol user [] = inl EmptyChoices)
    by (rewrite prompt_for_types_eq; reflexivity).
  assert (Hnil' : prompt_for_description pol user [] = inl EmptyChoices)
    by (rewrite prompt_for_description_eq; reflexivity).
  split; [|split].
  - intros Hne Hno.
    assert (Hs : prompt_for_uuid pol user meas_df meta_df = inr ([], [])).
    { rewrite prompt_for_uuid_eq.
      rewrite prompt_tick_none by
        (first [assumption|destruct meta_df; [congruence|discriminate]]).
      cbn [bind Monad_either ret]. rewrite keep_no_uuids, keep_no_runs. reflexivity. }
    split; [exact Hs|]. rewrite Hs. cbn [bind Monad_either]. rewrite Hnil. reflexivity.
  - intros m1 meta1 H1 Hne Hno.
    assert (Hs : prompt_for_types pol user m1 = inr []).
    { rewrite prompt_for_types_eq.
      rewrite prompt_tick_none by (first [assumption|apply type_choices_nonempty; assumption]).
      cbn [bind Monad_either ret]. rewrite keep_no_ids. reflexivity. }
    split; [exact Hs|]. rewrite H1. cbn [bind Monad_either].
    rewrite Hs. cbn [bind Monad_either]. rewrite Hnil'. reflexivity.
  - intros m1 meta1 m2 H1 H2 Hne Hno.
    assert (Hs : prompt_for_description pol user m2 = inr []).
    { rewrite prompt_for_description_eq.
      rewrite prompt_tick_none by
        (first [assumption|apply description_choices_nonempty; assumption]).
      cbn [bind Monad_either ret]. rewrite keep_no_ids. reflexivity. }
    split; [exact Hs|]. split; [apply join_remaining_columns_nil|].
    split; [apply dispatch_nil|].
    rewrite H1. cbn [bind Monad_either]. rewrite H2. cbn [bind Monad_either].
    rewrite Hs. cbn [bind Monad_either].
    rewrite join_remaining_columns_nil. cbn [bind Monad_either]. apply dispatch_nil.
Qed.
End MainFacts.

(** ** The payload joiner *)

Section MergeFacts.
Context {L R K O : Type}.
Variable eqb : K -> K -> bool.
Hypothesis eqb_eq : forall a b, eqb a b = true <-> a = b.
Variable lkey : L -> K.
Variable rkey : R -> K.
Variable combine : L -> R -> O.

Lemma filter_absent_key (k : K) (right : list R) :
  ~ In k (map rkey right) -> filter (fun r => eqb k (rkey r)) right = [].
Proof.
  induction right as [|x t IH]; simpl; intros H; [reflexivity|].
  destruct (eqb k (rkey x)) eqn:E.
  - apply eqb_eq in E. exfalso. apply H. left. congruence.
  - apply IH. intros Hin. apply H. right. exact Hin.
Qed.

Lemma filter_unique_key (k : K) (right : list R) (r : R) :
  NoDup (map rkey right) -> In r right -> rkey r = k ->
  filter (fun x => eqb k (rkey x)) right = [r].
Proof.
  induction right as [|x t IH]; simpl; intros Hnd Hin Hk; [contradiction|].
  inversion Hnd as [|? ? Hx Hnd']; subst.
  destruct Hin as [->|Hin].
  - assert (E : eqb (rkey r) (rkey r) = true) by (apply eqb_eq; reflexivity).
    rewrite E. f_equal. apply filter_absent_key. exact Hx.
  - destruct (eqb (rkey r) (rkey x)) eqn:E.
    + apply eqb_eq in E. exfalso. apply Hx. rewrite <- E. apply in_map. exact Hin.
    + apply IH; auto.
Qed.

(** With unique keys on the right and every left key present there, the
    inner join yields one row per left row, in the order of the left rows. *)
Lemma merge_one_to_one (left : list L) (right : list R) :
  NoDup (map rkey right) ->
  (forall l, In l left -> In (lkey l) (map rkey right)) ->
  Forall2 (fun l o => exists r, In r right /\ rkey r = lkey l /\ o = combine l r)
          left (merge eqb lkey rkey combine left right).
Proof.
  intros Hnd. unfold merge.
  induction left as [|l left IH]; intros Hall; simpl; [constructor|].
  assert (Hl : In (lkey l) (map rkey right)) by (apply Hall; left; reflexivity).
  apply in_map_iff in Hl. destruct Hl as [r [Hk Hr]].
  rewrite (filter_unique_key (lkey l) right r Hnd Hr Hk). simpl.
  constructor.
  - exists r. auto.
  - apply IH. intros l' Hl'. apply Hall. right. exact Hl'.
Qed.
End MergeFacts.

Lemma mapM_Forall2 {A B : Type} (f : A -> result B) (l : list A) :
  (forall x, In x l -> exists y, f x = inr y) ->
  exists ys, mapM f l = inr ys /\ Forall2 (fun x y => f x = inr y) l ys.
Proof.
  induction l as [|a l IH]; intros H; simpl.
  - exists []. split; [reflexivity|constructor].
  - destruct (H a (or_introl eq_refl)) as [b Hb].
    destruct IH as [ys [Hys HF]]; [intros; apply H; right; assumption|].
    exists (b :: ys). rewrite Hb. simpl. rewrite Hys. simpl.
    split; [reflexivity|]. constructor; assumption.
Qed.

(** Filtering a frame keeps a unique key column unique. *)
Lemma unique_key_filter {Row Key : Type} (key : Row -> Key) (keep : Row -> bool)
    (rows : list Row) (Hrows : NoDup (map key rows)) :
  NoDup (map key (filter keep rows)).
Proof.
  revert Hrows. induction rows as [|row rows IH]; simpl; intros Hrows; [constructor|].
  apply NoDup_cons_iff in Hrows. destruct Hrows as [Hfresh Hrows].
  destruct (keep row); simpl; [|auto].
  apply NoDup_cons; [|auto].
  rewrite in_map_iff. intros [other [Ekey Hother]].
  apply filter_In in Hother. apply Hfresh.
  rewrite <- Ekey. apply in_map. tauto.
Qed.

Lemma Forall2_map_eq {A B C : Type} (f : A -> C) (g : B -> C) (l : list A) (l' : list B) :
  Forall2 (fun x y => g y = f x) l l' -> map g l' = map f l.
Proof. induction 1; simpl; congruence. Qed.

Lemma Forall2_In_r {A B : Type} (P : A -> B -> Prop) (l : list A) (l' : list B) (y : B) :
  Forall2 P l l' -> In y l' -> exists x, In x l /\ P x y.
Proof.
  induction 1 as [|a b l l' Hab HF IH]; simpl; [contradiction|].
  intros [->|Hin]; [exists a; auto|].
  destruct (IH Hin) as [x [Hx HP]]. exists x. auto.
Qed.

Section JoinFacts.
Variable Payload : Type.
Variable pickle_loads : list Byte.byte -> option Payload.

Lemma unpickle_row_id (m : Measurement.t) (s : SerializedRow Payload) :
  unpickle_row Payload pickle_loads m = inr s -> ser_id s = Measurement.id m.
Proof.
  unfold unpickle_row. destruct (pickle_loads (Measurement.value m)); [|discriminate].
  intros H. inversion H. reflexivity.
Qed.

(** C5, amended.  On a well-formed store (unique measurement ids, unique
    run ids, every row of the working table loaded from the store, its
    payload decodable) and with every run id of the working table present
    in the metadata table, the joiner returns one row per row of the
    working table, and each output row holds the stored time, unit and
    decoded payload of its measurement and the metadata row of its run, as
    stored. *)
Theorem join_remaining_columns_rows (meas_df : list MeasRow) (meta_df : list MetaRow)
    (session : Session) :
  NoDup (map Measurement.id (measurements session)) ->
  (forall r, In r meas_df -> In (id r) (map Measurement.id (measurements session))) ->
  (forall m, In m (measurements session) -> In (Measurement.id m) (map id meas_df) ->
     pickle_loads (Measurement.value m) <> None) ->
  NoDup (map meta_uuid meta_df) ->
  (forall r, In r meas_df -> In (uuid r) (map meta_uuid meta_df)) ->
  exists df,
    join_remaining_columns Payload pickle_loads meas_df meta_df session = inr df
    /\ length df = length meas_df
    /\ Permutation (map flat_index df) meas_df
    /\ Forall (fun o =>
         (exists m, In m (measurements session)
                    /\ Measurement.id m = id (flat_index o)
                    /\ unpickle_row Payload pickle_loads m = inr (flat_payload o))
         /\ In (flat_meta o) meta_df
         /\ meta_uuid (flat_meta o) = uuid (flat_index o)) df.
Proof.
  intros Hstore Hsub Hpickle Hmeta Hfk.
  unfold join_remaining_columns.
  set (sel := fun m => existsb (Z.eqb (Measurement.id m)) (map id meas_df)).
  set (sq := filter sel (measurements session)).
  assert (Hdec : forall m, In m sq ->
            exists y, unpickle_row Payload pickle_loads m = inr y).
  { intros m Hm. apply filter_In in Hm. destruct Hm as [Hm Hsel].
    apply existsb_Zeqb_In in Hsel. specialize (Hpickle m Hm Hsel).
    unfold unpickle_row. destruct (pickle_loads (Measurement.value m));
      [eexists; reflexivity|congruence]. }
  destruct (mapM_Forall2 _ sq Hdec) as [sdf [Hs HF]].
  rewrite Hs. cbn [bind Monad_either ret].
  assert (Hkeys : map ser_id sdf = map Measurement.id sq).
  { apply Forall2_map_eq. eapply Forall2_impl; [|exact HF].
    intros m s. apply unpickle_row_id. }
  assert (Hnd : NoDup (map ser_id sdf)).
  { rewrite Hkeys. apply unique_key_filter. exact Hstore. }
  assert (Hin : forall r, In r meas_df -> In (id r) (map ser_id sdf)).
  { intros r Hr. rewrite Hkeys. specialize (Hsub r Hr).
    apply in_map_iff in Hsub. destruct Hsub as [m [E Hm]].
    apply in_map_iff. exists m. split; [exact E|].
    apply filter_In. split; [exact Hm|]. apply existsb_Zeqb_In.
    rewrite E. apply in_map. exact Hr. }
  pose proof (merge_one_to_one Z.eqb Z.eqb_eq id ser_id pair meas_df sdf Hnd Hin) as F1.
  set (m1 := merge Z.eqb id ser_id pair meas_df sdf) in *.
  assert (Hin2 : forall l, In l m1 -> In (uuid (fst l)) (map meta_uuid meta_df)).
  { intros l Hl. destruct (Forall2_In_r _ _ _ _ F1 Hl) as [r [Hr [s [_ [_ ->]]]]].
    simpl. apply Hfk. exact Hr. }
  pose proof (merge_one_to_one String.eqb String.eqb_eq (fun l => uuid (fst l)) meta_uuid
                (fun l r => mkFlatRecord (fst l) (snd l) r) m1 meta_df Hmeta Hin2) as F2.
  eexists. split; [reflexivity|].
  set (df := merge String.eqb _ meta_uuid _ m1 meta_df) in *.
  assert (Hidx : map flat_index df = meas_df).
  { transitivity (map fst m1).
    - apply Forall2_map_eq. eapply Forall2_impl; [|exact F2].
      intros l o [b [_ [_ ->]]]. reflexivity.
    - transitivity (map (fun r : MeasRow => r) meas_df); [|apply map_id].
      apply Forall2_map_eq.
      eapply Forall2_impl; [|exact F1].
      intros l o [s [_ [_ ->]]]. reflexivity. }
  split.
  { transitivity (length (map flat_index df)); [symmetry; apply length_map|].
    rewrite Hidx. reflexivity. }
  split; [rewrite Hidx; reflexivity|].
  apply Forall_forall. intros o Ho.
  destruct (Forall2_In_r _ _ _ _ F2 Ho) as [l [Hl [b [Hb [Eb ->]]]]].
  destruct (Forall2_In_r _ _ _ _ F1 Hl) as [r [Hr [s [Hsd [Es ->]]]]].
  destruct (Forall2_In_r _ _ _ _ HF Hsd) as [m [Hm Hu]].
  apply filter_In in Hm. destruct Hm as [Hm _]. simpl.
  split; [|auto].
  exists m. split; [exact Hm|]. split; [|exact Hu].
  apply unpickle_row_id in Hu. congruence.
Qed.
End JoinFacts.

Lemma scenario_foreign_key :
  forall r, In r scenario_meas -> In (uuid r) (map meta_uuid scenario_meta).
Proof. intros r [<-|[<-|[<-|[]]]]; simpl; auto. Qed.

(** C5, as stated, fails: run B is stored without a description, and the
    output row of its measurement has an empty [meta_desc]. *)
Lemma join_remaining_columns_empty_description :
  ~ (forall meas_df meta_df session df,
       (forall r, In r meas_df -> In (uuid r) (map meta_uuid meta_df)) ->
       join_remaining_columns _ sample_loads meas_df meta_df session = inr df ->
       length df = length meas_df /\ Forall joined_columns_non_empty df).
Proof.
  intros H.
  destruct (H scenario_meas scenario_meta scenario_session scenario_df
              scenario_foreign_key eq_refl) as [_ HF].
  rewrite Forall_forall in HF.
  assert (Hin : In (mkFlatRecord (mkMeasRow 3 "B" "latency" (Some "train"))
                      (mkSerializedRow 3 "2021-01-02 09:00" "s" [Byte.x4b; Byte.x09; Byte.x2e])
                      (mkMetaRow "B" None "2021-01-02")) scenario_df).
  { right. right. left. reflexivity. }
  destruct (HF _ Hin) as [_ [_ [Hd _]]]. discriminate.
Qed.

Lemma join_remaining_columns_rows_witness :
  exists df,
    join_remaining_columns _ sample_loads scenario_meas scenario_meta scenario_session = inr df
    /\ length df = length scenario_meas
    /\ Permutation (map flat_index df) scenario_meas
    /\ Forall (fun o =>
         (exists m, In m (measurements scenario_session)
                    /\ Measurement.id m = id (flat_index o)
                    /\ unpickle_row _ sample_loads m = inr (flat_payload o))
         /\ In (flat_meta o) scenario_meta
         /\ meta_uuid (flat_meta o) = uuid (flat_index o)) df.
Proof.
  apply (join_remaining_columns_rows _ sample_loads scenario_meas scenario_meta
           scenario_session).
  - repeat constructor; simpl; intuition discriminate.
  - intros r [<-|[<-|[<-|[]]]]; simpl; auto.
  - intros m [<-|[<-|[<-|[]]]] _; discriminate.
  - repeat constructor; simpl; intuition discriminate.
  - exact scenario_foreign_key.
Defined.

(** ** Collecting the figures *)

Lemma chain_sequences (parts : list (list PyObj)) :
  chain (map Seq parts) = inr (concat parts).
Proof.
  unfold chain. rewrite (mapM_inr_map py_iter (fun o => match o with Seq l => l | _ => [] end)).
  - cbn. rewrite map_map. rewrite map_id. reflexivity.
  - intros o Ho. apply in_map_iff in Ho. destruct Ho as [l [<- _]]. reflexivity.
Qed.

Lemma chain_matplotlib_figure (figs : list PyObj) (handle : nat) :
  In (Figure matplotlib handle) figs -> exists e, chain figs = inl e.
Proof.
  intros H.
  destruct (mapM_In_inl py_iter figs _ NotIterable H eq_refl) as [e He].
  exists e. unfold chain. rewrite He. reflexivity.
Qed.

(** C7 (the code departs from the claim).  On the two-run scenario with
    everything selected: when every visualizer hands back a list of figures
    the flattening yields all of them; when the latency visualizer hands
    back a single figure, the flattening raises on the matplotlib backend,
    and on the plotly backend it yields the names of the figure's
    properties, on which the display fails. *)
Theorem main_single_figure pol :
  main pol _ sample_loads list_mapper (no_criteria matplotlib) scenario_session full_user
    = inr [Figure matplotlib 1; Figure matplotlib 2; Figure matplotlib 3]
  /\ main pol _ sample_loads single_mapper (no_criteria matplotlib) scenario_session full_user
    = inl NotIterable
  /\ chain [Figure plotly 1; Seq [Figure plotly 3]]
    = inr [Str "data"; Str "layout"; Str "frames"; Figure plotly 3]
  /\ main pol _ sample_loads single_mapper (no_criteria plotly) scenario_session full_user
    = inl NoShowAttribute.
Proof. destruct pol; repeat split; reflexivity. Qed.

Lemma dispatch_unregistered_witness :
  exists e,
    dispatch _ latency_mapper matplotlib scenario_df = inl e
    /\ ((forall k V g, getitem latency_mapper k = inr V ->
           succeeded (V g matplotlib) = true) ->
        exists r', In r' scenario_df
                   /\ e = KeyError (measurement_type (flat_index r'))
                   /\ getitem latency_mapper (measurement_type (flat_index r')) = inl e).
Proof.
  apply (dispatch_unregistered _ latency_mapper matplotlib scenario_df
           (mkFlatRecord (mkMeasRow 2 "A" "memory" (Some "train"))
              (mkSerializedRow 2 "2021-01-01 10:01" "MB" [Byte.x4b; Byte.x2a; Byte.x2e])
              (mkMetaRow "A" (Some "first") "2021-01-01"))).
  - right. left. reflexivity.
  - reflexivity.
Defined.

Lemma main_empty_selection_witness :
  (scenario_meta <> [] ->
   nothing_ticked (answer_uuids no_descriptions_user (map uuid_choice scenario_meta)) ->
   prompt_for_uuid CompareByEquality no_descriptions_user scenario_meas scenario_meta
     = inr ([], [])
   /\ main CompareByEquality _ sample_loads list_mapper (no_criteria matplotlib)
        scenario_session no_descriptions_user = inl EmptyChoices)
  /\ (forall m1 meta1,
        prompt_for_uuid CompareByEquality no_descriptions_user scenario_meas scenario_meta
          = inr (m1, meta1) ->
        m1 <> [] ->
        nothing_ticked (answer_measurement_types no_descriptions_user (type_choices m1)) ->
        prompt_for_types CompareByEquality no_descriptions_user m1 = inr []
        /\ main CompareByEquality _ sample_loads list_mapper (no_criteria matplotlib)
             scenario_session no_descriptions_user = inl EmptyChoices)
  /\ (forall m1 meta1 m2,
        prompt_for_uuid CompareByEquality no_descriptions_user scenario_meas scenario_meta
          = inr (m1, meta1) ->
        prompt_for_types CompareByEquality no_descriptions_user m1 = inr m2 ->
        m2 <> [] ->
        nothing_ticked (answer_descriptions no_descriptions_user (description_choices m2)) ->
        prompt_for_description CompareByEquality no_descriptions_user m2 = inr []
        /\ join_remaining_columns _ sample_loads [] meta1 scenario_session = inr []
        /\ dispatch _ list_mapper (plotting_backend (no_criteria matplotlib)) [] = inr []
        /\ main CompareByEquality _ sample_loads list_mapper (no_criteria matplotlib)
             scenario_session no_descriptions_user = inr []).
Proof.
  apply (main_empty_selection CompareByEquality _ sample_loads list_mapper
           (no_criteria matplotlib) scenario_session no_descriptions_user
           scenario_meas scenario_meta); reflexivity.
Defined.

(** C9, as stated, fails: on the two-run scenario the user ticks nothing at
    the measurement-type stage, the stage returns the empty table, and the
    description prompt, opened on it without entries, ends the run with an
    error; the same happens after an empty selection at the run-id stage.
    An empty selection at the description stage completes. *)
Lemma main_empty_type_selection_fails :
  nothing_ticked (answer_measurement_types no_types_user (type_choices scenario_meas))
  /\ prompt_for_types CompareByEquality no_types_user scenario_meas = inr []
  /\ description_choices [] = []
  /\ main CompareByEquality _ sample_loads list_mapper (no_criteria matplotlib)
       scenario_session no_types_user = inl EmptyChoices
  /\ main CompareByEquality _ sample_loads list_mapper (no_criteria matplotlib)
       scenario_session no_uuids_user = inl EmptyChoices
  /\ main CompareByEquality _ sample_loads list_mapper (no_criteria matplotlib)
       scenario_session no_descriptions_user = inr [].
Proof.
  split; [exists (fun _ => false); split; reflexivity|].
  repeat split; reflexivity.
Qed.

(** ** Full selections against direct criteria *)

Lemma filter_all {A : Type} (p : A -> bool) (l : list A) :
  (forall x, In x l -> p x = true) -> filter p l = l.
Proof.
  induction l as [|a l IH]; simpl; intros H; [reflexivity|].
  rewrite (H a) by (left; reflexivity). f_equal. apply IH. intros; apply H; right; assumption.
Qed.

Lemma choice_names_In {V : Type} (items : list (PromptItem V)) (n : string) :
  In n (choice_names items) <-> exists v, In (Choice n v) items.
Proof.
  unfold choice_names. rewrite in_flat_map. split.
  - intros [[t|m w] [Hin Hv]]; simpl in Hv; [contradiction|].
    destruct Hv as [<-|[]]. eauto.
  - intros [v H]. exists (Choice n v). split; [assumption|left; reflexivity].
Qed.

Lemma uuid_choice_values (meta_df : list MetaRow) :
  choice_values (map uuid_choice meta_df) = map meta_uuid meta_df.
Proof. induction meta_df as [|b l IH]; simpl; [reflexivity|]. f_equal. exact IH. Qed.

Lemma type_choice_of_row (meas_df : list MeasRow) (r : MeasRow) :
  In r meas_df ->
  exists ids, In (Choice (measurement_type r) ids) (type_choices meas_df) /\ In (id r) ids.
Proof.
  intros Hr.
  set (key := fun r : MeasRow => Some (uuid r)).
  set (tkey := fun r : MeasRow => Some (measurement_type r)).
  set (g := filter (has_key String.eqb key (uuid r)) meas_df).
  assert (Hg : In (uuid r, g) (groupby String.eqb String.leb key meas_df)).
  { apply (groupby_covers String.eqb String.leb String.eqb_eq key meas_df r); auto. }
  assert (Hrg : In r g).
  { apply (groupby_row String.eqb String.leb String.eqb_eq key _ _ _ r Hg). auto. }
  exists (map id (filter (has_key String.eqb tkey (measurement_type r)) g)). split.
  - unfold type_choices. apply in_flat_map.
    exists (uuid r, g). split; [exact Hg|].
    simpl. right. apply in_map_iff.
    exists (measurement_type r, filter (has_key String.eqb tkey (measurement_type r)) g).
    split; [reflexivity|].
    apply (groupby_covers String.eqb String.leb String.eqb_eq tkey g r); auto.
  - apply in_map. apply filter_In. split; [exact Hrg|].
    apply has_key_true; [exact String.eqb_eq|reflexivity].
Qed.

Lemma tick_all_ticked {V : Type} (choices : list (PromptItem V)) :
  all_ticked (tick_all choices).
Proof. exists (fun _ => true). split; reflexivity. Qed.

Lemma has_metadata_nonempty (meta_df : list MetaRow) (meas_df : list MeasRow) :
  filter (has_metadata meta_df) meas_df <> [] -> meta_df <> [].
Proof.
  intros H ->. apply H. apply filter_none.
Qed.

Lemma filter_nonempty {A : Type} (p : A -> bool) (l : list A) :
  filter p l <> [] -> l <> [].
Proof. intros H ->. apply H. reflexivity. Qed.

(** A full selection at the run-id stage keeps the rows whose run has a
    metadata row, and the whole metadata table. *)
Lemma full_uuid_stage pol (user : User) (meas_df : list MeasRow) (meta_df : list MetaRow) :
  meta_df <> [] ->
  all_ticked (answer_uuids user (map uuid_choice meta_df)) ->
  prompt_for_uuid pol user meas_df meta_df =
  inr (filter (fun r => existsb (String.eqb (uuid r)) (map meta_uuid meta_df)) meas_df,
       meta_df).
Proof.
  intros Hne H. rewrite prompt_for_uuid_eq.
  rewrite prompt_tick_all by (first [assumption|destruct meta_df; [congruence|discriminate]]).
  cbn [bind Monad_either ret]. rewrite uuid_choice_values.
  unfold keep_uuids, keep_runs. do 2 f_equal.
  apply filter_all. intros b Hb. apply existsb_eqb_In. apply in_map. exact Hb.
Qed.

(** A full selection at the measurement-type stage keeps every row. *)
Lemma full_types_stage pol (user : User) (meas_df : list MeasRow) :
  meas_df <> [] ->
  all_ticked (answer_measurement_types user (type_choices meas_df)) ->
  prompt_for_types pol user meas_df = inr meas_df.
Proof.
  intros Hne H. rewrite prompt_for_types_eq.
  rewrite prompt_tick_all by (first [assumption|apply type_choices_nonempty; assumption]).
  cbn [bind Monad_either ret]. f_equal.
  apply filter_all. intros r Hr. apply existsb_Zeqb_In.
  destruct (type_choice_of_row meas_df r Hr) as [ids [Hc Hi]].
  apply in_concat. exists ids. split; [|exact Hi].
  apply choice_values_In. eauto.
Qed.

(** A full selection at the description stage keeps the rows that have a
    description, given unique row ids. *)
Lemma full_description_stage pol (user : User) (meas_df : list MeasRow) :
  NoDup (map id meas_df) ->
  meas_df <> [] ->
  all_ticked (answer_descriptions user (description_choices meas_df)) ->
  prompt_for_description pol user meas_df = inr (filter described meas_df).
Proof.
  intros Hnd Hne H. rewrite prompt_for_description_eq.
  rewrite prompt_tick_all
    by (first [assumption|apply description_choices_nonempty; assumption]).
  cbn [bind Monad_either ret]. f_equal.
  unfold keep_ids. apply filter_ext_in. intros r Hr. unfold described.
  destruct (measurement_desc r) as [d|] eqn:Ed.
  - apply existsb_Zeqb_In.
    destruct (description_choice_of_row meas_df r d Hr Ed) as [ids [Hc Hi]].
    apply in_concat. exists ids. split; [|exact Hi].
    apply choice_values_In. eauto.
  - apply not_true_is_false. intros Hi. apply existsb_Zeqb_In in Hi.
    apply in_concat in Hi. destruct Hi as [ids [Hids Hi]].
    apply choice_values_In in Hids. destruct Hids as [name Hc].
    destruct (description_choice_ids _ _ _ _ Hc Hi) as [r' [Hr' [Ei Hd']]].
    assert (r' = r) by (apply (NoDup_map_inj id meas_df); assumption).
    subst r'. congruence.
Qed.

Lemma filter_filter_and {A : Type} (p q : A -> bool) (l : list A) :
  filter p (filter q l) = filter (fun x => q x && p x) l.
Proof.
  induction l as [|a l IH]; simpl; [reflexivity|].
  destruct (q a); simpl; [destruct (p a)|]; rewrite IH; reflexivity.
Qed.

Lemma keep_all_type_ids (meas_df : list MeasRow) :
  keep_ids (concat (choice_values (type_choices meas_df))) meas_df = meas_df.
Proof.
  apply filter_all. intros r Hr. apply existsb_Zeqb_In.
  destruct (type_choice_of_row meas_df r Hr) as [ids [Hc Hi]].
  apply in_concat. exists ids. split; [|exact Hi].
  apply choice_values_In. eauto.
Qed.

Lemma member_In (l : list string) (s x : string) :
  In x l -> member (Some l) (Some s) = existsb (String.eqb s) l.
Proof. intros H. unfold member. destruct l; [contradiction|reflexivity]. Qed.

Lemma member_In_null (l : list string) (x : string) :
  In x l -> member (Some l) None = false.
Proof. intros H. unfold member. destruct l; [contradiction|reflexivity]. Qed.

Section FullSelection.
Variable pol : HashPolicy.
Variable meas_df : list MeasRow.
Variable meta_df : list MetaRow.
Hypothesis unique_ids : NoDup (map id meas_df).

(** Ticking every entry at the three stages leaves the rows that have a
    description and whose run has a metadata row, provided a row has a
    metadata row at all. *)
Lemma select_full (backend : Backend) :
  filter (has_metadata meta_df) meas_df <> [] ->
  select pol (no_criteria backend) full_user meas_df meta_df =
  inr (filter described (filter (has_metadata meta_df) meas_df), meta_df).
Proof.
  intros Hne. unfold select. simpl.
  rewrite full_uuid_stage
    by (first [apply tick_all_ticked|exact (has_metadata_nonempty _ _ Hne)]).
  cbn [bind Monad_either].
  rewrite full_types_stage by (first [apply tick_all_ticked|exact Hne]).
  cbn [bind Monad_either].
  rewrite full_description_stage;
    [reflexivity|apply unique_key_filter; exact unique_ids|exact Hne
    |apply tick_all_ticked].
Qed.

(** Ticking every entry, the stages can be run in another order: the
    description stage first, then the run-id stage, then the type stage,
    provided a row is left at the end. *)
Lemma select_full_reordered (backend : Backend) :
  filter described (filter (has_metadata meta_df) meas_df) <> [] ->
  ('(m2, meta') <- (m1 <- prompt_for_description pol full_user meas_df ;;
                    prompt_for_uuid pol full_user m1 meta_df) ;;
   m3 <- prompt_for_types pol full_user m2 ;;
   ret (m3, meta'))
  = select pol (no_criteria backend) full_user meas_df meta_df.
Proof.
  intros Hleft.
  assert (Hne : filter (has_metadata meta_df) meas_df <> [])
    by exact (filter_nonempty _ _ Hleft).
  assert (Hswap : filter (has_metadata meta_df) (filter described meas_df)
                  = filter described (filter (has_metadata meta_df) meas_df)).
  { rewrite !filter_filter_and. apply filter_ext. intros r. apply andb_comm. }
  rewrite select_full by exact Hne.
  rewrite full_description_stage
    by (first [exact unique_ids|apply tick_all_ticked
              |exact (filter_nonempty _ _ Hne)]).
  cbn [bind Monad_either].
  rewrite full_uuid_stage
    by (first [apply tick_all_ticked|exact (has_metadata_nonempty _ _ Hne)]).
  cbn [bind Monad_either].
  change (filter (fun r => existsb (String.eqb (uuid r)) (map meta_uuid meta_df))
            (filter described meas_df))
    with (filter (has_metadata meta_df) (filter described meas_df)).
  rewrite Hswap.
  rewrite full_types_stage by (first [apply tick_all_ticked|exact Hleft]).
  reflexivity.
Qed.

(** Unless nothing is left, the membership filter of the specification,
    applied once with the criteria that name the full selection, leaves
    the same measurement rows. *)
Lemma criteria_filter_spec_full :
  filter described (filter (has_metadata meta_df) meas_df) <> [] ->
  exists meta',
    criteria_filter_spec meas_df meta_df (full_selection_criteria meas_df meta_df)
    = inr (filter described (filter (has_metadata meta_df) meas_df), meta').
Proof.
  intros Hne.
  assert (Hm : filter (matches_criteria (full_selection_criteria meas_df meta_df)) meas_df
               = filter described (filter (has_metadata meta_df) meas_df)).
  { destruct (filter described (filter (has_metadata meta_df) meas_df)) as [|r0 rest] eqn:Eout;
      [congruence|].
    assert (H0 : In r0 (filter described (filter (has_metadata meta_df) meas_df)))
      by (rewrite Eout; left; reflexivity).
    apply filter_In in H0. destruct H0 as [H0 Hd0].
    assert (H1 := H0). apply filter_In in H1. destruct H1 as [Hr0 Hu0].
    rewrite <- Eout, filter_filter_and. apply filter_ext_in. intros r Hr.
    unfold matches_criteria, full_selection_criteria. cbv zeta.
    cbn [uuids types descriptions].
    rewrite uuid_choice_values, keep_all_type_ids.
    fold (has_metadata meta_df).
    apply existsb_eqb_In in Hu0.
    rewrite (member_In _ _ _ Hu0). fold (has_metadata meta_df r).
    destruct (type_choice_of_row _ _ H0) as [ids0 [Hc0 _]].
    assert (Ht0 : In (measurement_type r0) (choice_names (type_choices (filter (has_metadata meta_df) meas_df))))
      by (apply choice_names_In; eauto).
    unfold described in Hd0. destruct (measurement_desc r0) as [d0|] eqn:Ed0; [|discriminate].
    destruct (description_choice_of_row _ _ _ H0 Ed0) as [ids0' [Hc0' _]].
    assert (Hdn0 : In d0 (choice_names (description_choices (filter (has_metadata meta_df) meas_df))))
      by (apply choice_names_In; eauto).
    destruct (has_metadata meta_df r) eqn:Ein; [|reflexivity].
    assert (Hr1 : In r (filter (has_metadata meta_df) meas_df)) by (apply filter_In; auto).
    rewrite (member_In _ _ _ Ht0).
    destruct (type_choice_of_row _ _ Hr1) as [ids [Hc _]].
    assert (Ht : existsb (String.eqb (measurement_type r))
                   (choice_names (type_choices (filter (has_metadata meta_df) meas_df))) = true).
    { apply existsb_eqb_In, choice_names_In. eauto. }
    rewrite Ht. simpl. unfold described.
    destruct (measurement_desc r) as [d|] eqn:Ed.
    - rewrite (member_In _ _ _ Hdn0). apply existsb_eqb_In, choice_names_In.
      destruct (description_choice_of_row _ _ _ Hr1 Ed) as [ids' [Hc' _]]. eauto.
    - apply (member_In_null _ _ Hdn0). }
  unfold criteria_filter_spec. cbv zeta. rewrite Hm.
  destruct (filter described (filter (has_metadata meta_df) meas_df)); [congruence|].
  eexists. reflexivity.
Qed.
End FullSelection.

(** C3 (the code departs from the claim).  On the two-run scenario, ticking
    every entry at the three stages keeps the three measurement rows, and so
    does the membership filter of the specification when it is given the run
    ids, types and descriptions behind the ticked entries; [filter_by_args]
    with these criteria fails, whatever the table holds, because of the
    nested list it looks the columns up in. *)
Theorem full_selection_vs_filter_by_args pol :
  let args := full_selection_criteria scenario_meas scenario_meta in
  select pol (no_criteria matplotlib) full_user scenario_meas scenario_meta
    = inr (scenario_meas, scenario_meta)
  /\ args = mkArgs "db" (Some ["A"; "B"]) (Some ["latency"; "memory"; "latency"])
              (Some ["train"; "train"; "train"]) matplotlib
  /\ criteria_filter_spec scenario_meas scenario_meta args
    = inr (scenario_meas, scenario_meta)
  /\ filter_by_args pol scenario_meas scenario_meta args = inl (wrapped_lookup_error pol)
  /\ (forall meas_df meta_df,
        filter_by_args pol meas_df meta_df args = inl (wrapped_lookup_error pol)).
Proof.
  cbv zeta. split; [destruct pol; reflexivity|].
  split; [reflexivity|]. split; [reflexivity|].
  split; [|intros meas_df meta_df]; apply filter_by_args_supplied; reflexivity.
Qed.

(** * Further properties of the pipeline *)

(** ** The criteria filter and the start of [main] *)

(** X1.  [filter_by_args] returns exactly when no criterion is supplied and
    the measurement-index table is not empty, and it then returns the two
    tables it was given. *)
Theorem filter_by_args_returns_iff pol meas_df meta_df args meas' meta' :
  filter_by_args pol meas_df meta_df args = inr (meas', meta') <->
  truthy (uuids args) || truthy (types args) || truthy (descriptions args) = false
  /\ meas_df <> [] /\ meas' = meas_df /\ meta' = meta_df.
Proof.
  destruct (truthy (uuids args) || truthy (types args) || truthy (descriptions args)) eqn:E.
  - rewrite filter_by_args_supplied by assumption. split; [discriminate|].
    intros [H _]. discriminate.
  - rewrite filter_by_args_not_supplied by assumption.
    destruct meas_df as [|r rest]; split.
    + discriminate.
    + intros [_ [H _]]. congruence.
    + intros H. inversion H; subst. repeat split. discriminate.
    + intros [_ [_ [-> ->]]]. reflexivity.
Qed.

Lemma main_filter_error pol (Payload : Type) pickle_loads
    (mapper : dict (VisualizerClass Payload)) args session user e :
  filter_by_args pol (fst (create_dfs session)) (snd (create_dfs session)) args = inl e ->
  main pol Payload pickle_loads mapper args session user = inl e.
Proof.
  intros H. unfold main, create_dfs in *. cbn [fst snd] in H.
  rewrite H. reflexivity.
Qed.

(** X2.  On a database without measurements [main] fails before any prompt,
    whoever the user and whatever the arguments: with the "no database
    entries" error when no criterion is supplied, with the error of the
    nested lookup otherwise. *)
Theorem main_without_measurements pol (Payload : Type) pickle_loads
    (mapper : dict (VisualizerClass Payload)) args session user :
  measurements session = [] ->
  main pol Payload pickle_loads mapper args session user =
  inl (if truthy (uuids args) || truthy (types args) || truthy (descriptions args)
       then wrapped_lookup_error pol else NoDatabaseEntries).
Proof.
  intros Hempty. apply main_filter_error.
  destruct (truthy (uuids args) || truthy (types args) || truthy (descriptions args)) eqn:E.
  - apply filter_by_args_supplied. exact E.
  - rewrite filter_by_args_not_supplied by exact E.
    unfold create_dfs. rewrite Hempty. reflexivity.
Qed.

(** X3.  When a run-id, type or description list is given on the command
    line, [main] fails in the criteria filter for every database and every
    user; nothing is prompted, joined or plotted. *)
Theorem main_with_criteria pol (Payload : Type) pickle_loads
    (mapper : dict (VisualizerClass Payload)) args session user :
  truthy (uuids args) || truthy (types args) || truthy (descriptions args) = true ->
  main pol Payload pickle_loads mapper args session user = inl (wrapped_lookup_error pol).
Proof.
  intros H. apply main_filter_error. apply filter_by_args_supplied. exact H.
Qed.

(** ** The selector as a whole *)

Section SelectorStages.
Variable pol : HashPolicy.
Variable args : Args.
Variable user : User.

Lemma uuid_stage_inr (meas_df : list MeasRow) (meta_df : list MetaRow) m1 meta1 :
  match uuids args with
  | None => prompt_for_uuid pol user meas_df meta_df
  | Some _ => ret (meas_df, meta_df)
  end = inr (m1, meta1) ->
  (uuids args = None /\
   exists chosen,
     prompt "uuids" (answer_uuids user) (map uuid_choice meta_df) = inr chosen
     /\ m1 = keep_uuids chosen meas_df /\ meta1 = keep_runs chosen meta_df)
  \/ (uuids args <> None /\ m1 = meas_df /\ meta1 = meta_df).
Proof.
  destruct (uuids args) as [l|].
  - intros H. inversion H. right. repeat split. discriminate.
  - intros H. apply prompt_for_uuid_inr in H. destruct H as [chosen [Hc E]].
    inversion E. left. split; [reflexivity|]. exists chosen. auto.
Qed.

Lemma id_stage_inr (criterion : option (list string)) (stage : result (list MeasRow))
    (name : string) (answer : Answer (list Z)) (choices : list (PromptItem (list Z)))
    (meas_df m' : list MeasRow) :
  stage = (res <- prompt name answer choices ;; ret (keep_ids (concat res) meas_df)) ->
  match criterion with None => stage | Some _ => ret meas_df end = inr m' ->
  exists keep, m' = filter keep meas_df.
Proof.
  intros Hs. destruct criterion as [l|].
  - intros H. inversion H. exists (fun _ => true). symmetry. apply filter_all. reflexivity.
  - rewrite Hs. destruct (prompt name answer choices) as [e|res]; cbn; [discriminate|].
    intros H. inversion H. eexists. reflexivity.
Qed.

Lemma id_stage_inl (criterion : option (list string)) (stage : result (list MeasRow))
    (name : string) (answer : Answer (list Z)) (choices : list (PromptItem (list Z)))
    (meas_df : list MeasRow) (e : exn) :
  stage = (res <- prompt name answer choices ;; ret (keep_ids (concat res) meas_df)) ->
  match criterion with None => stage | Some _ => ret meas_df end = inl e ->
  e = EmptyChoices \/ e = KeyError name.
Proof.
  intros Hs. destruct criterion as [l|]; [discriminate|].
  rewrite Hs. destruct (prompt name answer choices) as [e'|res] eqn:E; cbn; [|discriminate].
  intros H. inversion H; subst. eapply prompt_error. exact E.
Qed.

(** X4.  The selector only removes rows: when it returns, the tables are the
    given tables filtered, rows kept in their order.  When it fails, the
    error is that of a prompt, drawn without entries or interrupted; the
    lookups of the stages never fail. *)
Theorem select_filters (meas_df : list MeasRow) (meta_df : list MetaRow) :
  (forall meas' meta',
     select pol args user meas_df meta_df = inr (meas', meta') ->
     exists keep_meas keep_meta,
       meas' = filter keep_meas meas_df /\ meta' = filter keep_meta meta_df)
  /\ (forall e, select pol args user meas_df meta_df = inl e -> prompt_errors e).
Proof.
  unfold select, prompt_errors. split.
  - intros meas' meta' H.
    destruct (match uuids args with
              | None => prompt_for_uuid pol user meas_df meta_df
              | Some _ => ret (meas_df, meta_df) end) as [e|[m1 meta1]] eqn:E1;
      cbn [bind Monad_either] in H; [discriminate|].
    destruct (match types args with
              | None => prompt_for_types pol user m1
              | Some _ => ret m1 end) as [e|m2] eqn:E2;
      cbn [bind Monad_either] in H; [discriminate|].
    destruct (match descriptions args with
              | None => prompt_for_description pol user m2
              | Some _ => ret m2 end) as [e|m3] eqn:E3;
      cbn [bind Monad_either ret] in H; [discriminate|].
    inversion H; subst; clear H.
    destruct (id_stage_inr _ _ _ _ _ _ _ (prompt_for_types_eq pol user m1) E2) as [p2 ->].
    destruct (id_stage_inr _ _ _ _ _ _ _ (prompt_for_description_eq pol user _) E3)
      as [p3 ->].
    apply uuid_stage_inr in E1.
    destruct E1 as [[_ [chosen [_ [-> ->]]]]|[_ [-> ->]]].
    + unfold keep_uuids, keep_runs. rewrite !filter_filter_and. eauto.
    + rewrite filter_filter_and. eexists. exists (fun _ => true). split; [reflexivity|].
      symmetry. apply filter_all. reflexivity.
  - intros e H.
    destruct (match uuids args with
              | None => prompt_for_uuid pol user meas_df meta_df
              | Some _ => ret (meas_df, meta_df) end) as [e1|[m1 meta1]] eqn:E1;
      cbn [bind Monad_either] in H.
    { inversion H; subst. destruct (uuids args); [discriminate|].
      rewrite prompt_for_uuid_eq in E1.
      destruct (prompt "uuids" _ _) as [e'|c] eqn:Ep; cbn in E1; [|discriminate].
      inversion E1; subst. apply prompt_error in Ep. tauto. }
    destruct (match types args with
              | None => prompt_for_types pol user m1
              | Some _ => ret m1 end) as [e2|m2] eqn:E2;
      cbn [bind Monad_either] in H.
    { inversion H; subst.
      destruct (id_stage_inl _ _ _ _ _ _ _ (prompt_for_types_eq pol user m1) E2); tauto. }
    destruct (match descriptions args with
              | None => prompt_for_description pol user m2
              | Some _ => ret m2 end) as [e3|m3] eqn:E3;
      cbn [bind Monad_either ret] in H; [|discriminate].
    inversion H; subst.
    destruct (id_stage_inl _ _ _ _ _ _ _ (prompt_for_description_eq pol user m2) E3); tauto.
Qed.

Lemma uuid_choice_value (meta_df : list MetaRow) (name u : string) :
  In (Choice name u) (map uuid_choice meta_df) ->
  exists b, In b meta_df /\ meta_uuid b = u.
Proof.
  intros H. apply in_map_iff in H. destruct H as [b [E Hb]].
  unfold uuid_choice in E. inversion E. exists b. auto.
Qed.

(** X5.  When the run-id stage is run, every measurement row the selector
    returns belongs to a run of the metadata table it returns, whether or
    not the loaded tables were consistent: a run can only be ticked through
    its metadata row, and the later stages leave the metadata table alone. *)
Theorem select_foreign_key (meas_df : list MeasRow) (meta_df : list MetaRow)
    (meas' : list MeasRow) (meta' : list MetaRow) :
  uuids args = None ->
  select pol args user meas_df meta_df = inr (meas', meta') ->
  forall r, In r meas' -> exists b, In b meta' /\ meta_uuid b = uuid r.
Proof.
  intros Hu H r Hr. unfold select in H.
  destruct (match uuids args with
            | None => prompt_for_uuid pol user meas_df meta_df
            | Some _ => ret (meas_df, meta_df) end) as [e|[m1 meta1]] eqn:E1;
    cbn [bind Monad_either] in H; [discriminate|].
  destruct (match types args with
            | None => prompt_for_types pol user m1
            | Some _ => ret m1 end) as [e|m2] eqn:E2;
    cbn [bind Monad_either] in H; [discriminate|].
  destruct (match descriptions args with
            | None => prompt_for_description pol user m2
            | Some _ => ret m2 end) as [e|m3] eqn:E3;
    cbn [bind Monad_either ret] in H; [discriminate|].
  inversion H; subst; clear H.
  destruct (id_stage_inr _ _ _ _ _ _ _ (prompt_for_types_eq pol user m1) E2) as [p2 ->].
  destruct (id_stage_inr _ _ _ _ _ _ _ (prompt_for_description_eq pol user _) E3)
    as [p3 ->].
  apply filter_In in Hr. destruct Hr as [Hr _].
  apply filter_In in Hr. destruct Hr as [Hr _].
  apply uuid_stage_inr in E1.
  destruct E1 as [[_ [chosen [Hc [-> ->]]]]|[Hn _]]; [|congruence].
  apply filter_In in Hr. destruct Hr as [_ Hin]. apply existsb_eqb_In in Hin.
  destruct (prompt_In _ _ _ _ _ Hc Hin) as [name Hn].
  destruct (uuid_choice_value _ _ _ Hn) as [b [Hb Eb]].
  exists b. split; [|exact Eb].
  apply filter_In. split; [exact Hb|].
  apply existsb_eqb_In. rewrite Eb. exact Hin.
Qed.
End SelectorStages.

Lemma select_foreign_key_witness :
  exists b, In b [ mkMetaRow "A" (Some "first") "2021-01-01" ]
            /\ meta_uuid b = uuid (mkMeasRow 1 "A" "latency" (Some "train")).
Proof.
  apply (select_foreign_key CompareByEquality (no_criteria matplotlib)
           (mkUser (fun _ => Confirm (fun i => Nat.eqb i 0))
                   (fun _ => Confirm (fun i => Nat.eqb i 1)) tick_all)
           scenario_meas scenario_meta
           [ mkMeasRow 1 "A" "latency" (Some "train") ]
           [ mkMetaRow "A" (Some "first") "2021-01-01" ]).
  - reflexivity.
  - reflexivity.
  - left. reflexivity.
Defined.

(** X6.  A user who ticks every entry of the three prompts is left with the
    rows that have a description and whose run has a metadata row, and with
    the whole metadata table (row ids being unique, and some row having a
    metadata row, so that no prompt is drawn without entries). *)
Theorem select_tick_all pol (backend : Backend) (user : User)
    (meas_df : list MeasRow) (meta_df : list MetaRow) :
  NoDup (map id meas_df) ->
  filter (has_metadata meta_df) meas_df <> [] ->
  (forall c, all_ticked (answer_uuids user c)) ->
  (forall c, all_ticked (answer_measurement_types user c)) ->
  (forall c, all_ticked (answer_descriptions user c)) ->
  select pol (no_criteria backend) user meas_df meta_df
  = inr (filter described (filter (has_metadata meta_df) meas_df), meta_df).
Proof.
  intros Hnd Hne Hu Ht Hd. unfold select. simpl.
  rewrite full_uuid_stage by (first [apply Hu|exact (has_metadata_nonempty _ _ Hne)]).
  cbn [bind Monad_either].
  rewrite full_types_stage by (first [apply Ht|exact Hne]).
  cbn [bind Monad_either].
  rewrite full_description_stage;
    [reflexivity|apply unique_key_filter; exact Hnd|exact Hne|apply Hd].
Qed.

Lemma select_tick_all_witness :
  select CompareByEquality (no_criteria plotly) full_user described_meas scenario_meta
  = inr (filter described (filter (has_metadata scenario_meta) described_meas), scenario_meta).
Proof.
  apply (select_tick_all CompareByEquality plotly full_user described_meas scenario_meta).
  - repeat constructor; simpl; intuition discriminate.
  - discriminate.
  - apply tick_all_ticked.
  - apply tick_all_ticked.
  - apply tick_all_ticked.
Defined.

(** ** The entries of the type and description prompts *)

Lemma choice_values_app {V : Type} (a b : list (PromptItem V)) :
  choice_values (a ++ b)%list = (choice_values a ++ choice_values b)%list.
Proof. unfold choice_values. apply flat_map_app. Qed.

Lemma choice_values_groups (gs : list (string * list MeasRow)) :
  concat (choice_values (map (fun g => Choice (fst g) (map id (snd g))) gs))
  = map id (concat (map snd gs)).
Proof.
  induction gs as [|g gs IH]; [reflexivity|].
  cbn [map choice_values flat_map concat app]. fold (@choice_values (list Z)).
  rewrite map_app. f_equal. exact IH.
Qed.

Lemma filter_permutation {A : Type} (p : A -> bool) (l l' : list A) :
  Permutation l l' -> Permutation (filter p l) (filter p l').
Proof.
  induction 1 as [|x l l' H IH|x y l|l l' l'' H1 IH1 H2 IH2]; simpl.
  - constructor.
  - destruct (p x); [apply perm_skip|]; exact IH.
  - destruct (p x), (p y); try reflexivity. apply perm_swap.
  - etransitivity; eassumption.
Qed.

Lemma filter_concat {A : Type} (p : A -> bool) (ls : list (list A)) :
  filter p (concat ls) = concat (map (filter p) ls).
Proof.
  induction ls as [|l ls IH]; simpl; [reflexivity|].
  rewrite filter_app, IH. reflexivity.
Qed.

(** The ids behind the entries built group by group, when the entries of
    each group carry the ids of the rows of the group that satisfy [p]. *)
Lemma grouped_choice_ids {K : Type} (entries : K * list MeasRow -> list (PromptItem (list Z)))
    (p : MeasRow -> bool) (gs : list (K * list MeasRow)) :
  (forall g, In g gs ->
     Permutation (concat (choice_values (entries g))) (map id (filter p (snd g)))) ->
  Permutation (concat (choice_values (flat_map entries gs)))
              (map id (filter p (concat (map snd gs)))).
Proof.
  induction gs as [|g gs IH]; intros H; simpl; [reflexivity|].
  rewrite choice_values_app, concat_app, filter_app, map_app.
  apply Permutation_app.
  - apply H. left. reflexivity.
  - apply IH. intros g' Hg'. apply H. right. exact Hg'.
Qed.

Lemma keyed_total {R K : Type} (f : R -> K) (rows : list R) :
  filter (keyed (fun r => Some (f r))) rows = rows.
Proof. apply filter_all. reflexivity. Qed.

(** X7.  The entries of the measurement-type prompt partition the table:
    taken together, the id lists they carry hold the id of every row, each
    as often as the table does. *)
Theorem type_choices_partition (meas_df : list MeasRow) :
  Permutation (concat (choice_values (type_choices meas_df))) (map id meas_df).
Proof.
  unfold type_choices.
  set (ukey := fun r : MeasRow => Some (uuid r)).
  set (tkey := fun r : MeasRow => Some (measurement_type r)).
  rewrite (grouped_choice_ids _ (fun _ => true)).
  - rewrite (filter_all (fun _ => true)) by reflexivity.
    apply Permutation_map.
    rewrite (groupby_partition String.eqb String.leb String.eqb_eq ukey).
    unfold ukey. rewrite keyed_total. reflexivity.
  - intros [u g] _. cbn [snd].
    rewrite (filter_all (fun _ => true)) by reflexivity.
    change (choice_values (Separator ("Available types for uuid " ++ u)
              :: map (fun '(meas_type, meas_type_group) =>
                        Choice meas_type (map id meas_type_group))
                     (groupby String.eqb String.leb tkey g)))
      with (choice_values (map (fun '(meas_type, meas_type_group) =>
                        Choice meas_type (map id meas_type_group))
                     (groupby String.eqb String.leb tkey g))).
    rewrite (map_ext _ (fun tg => Choice (fst tg) (map id (snd tg))))
      by (intros [t tg]; reflexivity).
    rewrite choice_values_groups. apply Permutation_map.
    rewrite (groupby_partition String.eqb String.leb String.eqb_eq tkey).
    unfold tkey. rewrite keyed_total. reflexivity.
Qed.

(** X8.  The entries of the description prompt partition the described part
    of the table: their id lists hold the ids of exactly the rows whose
    description is not null, each as often as the table does. *)
Theorem description_choices_partition (meas_df : list MeasRow) :
  Permutation (concat (choice_values (description_choices meas_df)))
              (map id (filter described meas_df)).
Proof.
  unfold description_choices.
  set (key := fun r : MeasRow => Some (uuid r, measurement_type r)).
  rewrite (grouped_choice_ids _ described).
  - apply Permutation_map. apply filter_permutation.
    rewrite (groupby_partition pair_eqb pair_leb pair_eqb_eq key).
    unfold key. rewrite keyed_total. reflexivity.
  - intros [[u t] g] _. cbn [snd].
    change (choice_values
              (Separator ("Available descriptions for uuid " ++ u ++ " and type " ++ t)
               :: map (fun '(desc, desc_group) => Choice desc (map id desc_group))
                      (groupby String.eqb String.leb measurement_desc g)))
      with (choice_values (map (fun '(desc, desc_group) => Choice desc (map id desc_group))
                      (groupby String.eqb String.leb measurement_desc g))).
    rewrite (map_ext _ (fun dg => Choice (fst dg) (map id (snd dg))))
      by (intros [d dg]; reflexivity).
    rewrite choice_values_groups. apply Permutation_map.
    apply (groupby_partition String.eqb String.leb String.eqb_eq measurement_desc).
Qed.

Lemma type_choice_members (meas_df : list MeasRow) (name : string) (ids : list Z) :
  In (Choice name ids) (type_choices meas_df) ->
  exists u, forall i,
    In i ids <->
    exists x, In x meas_df /\ id x = i /\ uuid x = u /\ measurement_type x = name.
Proof.
  unfold type_choices. rewrite in_flat_map.
  intros [[u g] [Hg Hc]]. simpl in Hc.
  destruct Hc as [Hc|Hc]; [discriminate|].
  apply in_map_iff in Hc. destruct Hc as [[t tg] [E Htg]].
  inversion E; subst. exists u. intros i. rewrite in_map_iff.
  assert (Hrow : forall x, In x tg <->
                   In x meas_df /\ uuid x = u /\ measurement_type x = name).
  { intros x.
    rewrite (groupby_row String.eqb String.leb String.eqb_eq _ _ _ _ x Htg).
    rewrite (groupby_row String.eqb String.leb String.eqb_eq _ _ _ _ x Hg).
    split.
    - intros [[Hx Hu] Ht]. inversion Hu. inversion Ht. auto.
    - intros [Hx [<- <-]]. auto. }
  split.
  - intros [x [Ei Hx]]. exists x. apply Hrow in Hx. tauto.
  - intros [x [Hx [Ei Hk]]]. exists x. split; [exact Ei|]. apply Hrow. tauto.
Qed.

Lemma description_choice_members (meas_df : list MeasRow) (name : string) (ids : list Z) :
  In (Choice name ids) (description_choices meas_df) ->
  exists u t, forall i,
    In i ids <->
    exists x, In x meas_df /\ id x = i /\ uuid x = u /\ measurement_type x = t
              /\ measurement_desc x = Some name.
Proof.
  unfold description_choices. rewrite in_flat_map.
  intros [[[u t] g] [Hg Hc]]. simpl in Hc.
  destruct Hc as [Hc|Hc]; [discriminate|].
  apply in_map_iff in Hc. destruct Hc as [[d dg] [E Hdg]].
  inversion E; subst. exists u, t. intros i. rewrite in_map_iff.
  assert (Hrow : forall x, In x dg <->
                   In x meas_df /\ uuid x = u /\ measurement_type x = t
                   /\ measurement_desc x = Some name).
  { intros x.
    rewrite (groupby_row String.eqb String.leb String.eqb_eq _ _ _ _ x Hdg).
    rewrite (groupby_row pair_eqb pair_leb pair_eqb_eq _ _ _ _ x Hg).
    split.
    - intros [[Hx Hk] Hd]. inversion Hk. auto.
    - intros [Hx [<- [<- Hd]]]. auto. }
  split.
  - intros [x [Ei Hx]]. exists x. apply Hrow in Hx. tauto.
  - intros [x [Hx [Ei Hk]]]. exists x. split; [exact Ei|]. apply Hrow. tauto.
Qed.

(** X9.  The measurement-type stage selects whole groups: with unique row
    ids, two rows of the same run and measurement type are either both in
    the table the stage returns or both missing from it, whatever the user
    ticks. *)
Theorem prompt_for_types_whole_groups pol user (meas_df out : list MeasRow)
    (r r' : MeasRow) :
  NoDup (map id meas_df) ->
  In r meas_df -> In r' meas_df ->
  uuid r = uuid r' -> measurement_type r = measurement_type r' ->
  prompt_for_types pol user meas_df = inr out ->
  (In r out <-> In r' out).
Proof.
  intros Hnd Hr Hr' Eu Et Hout.
  apply prompt_for_types_inr in Hout. destruct Hout as [res [Hres ->]].
  assert (Hgo : forall a b, In a meas_df -> In b meas_df ->
            uuid a = uuid b -> measurement_type a = measurement_type b ->
            In a (keep_ids (concat res) meas_df) -> In b (keep_ids (concat res) meas_df)).
  { intros a b Ha Hb Eab Tab Hin. apply keep_ids_In in Hin. destruct Hin as [_ Hi].
    apply keep_ids_In. split; [exact Hb|].
    apply in_concat in Hi. destruct Hi as [ids [Hids Hi]].
    apply in_concat. exists ids. split; [exact Hids|].
    destruct (prompt_In _ _ _ _ _ Hres Hids) as [name Hc].
    destruct (type_choice_members _ _ _ Hc) as [u Hm].
    apply Hm in Hi. destruct Hi as [x [Hx [Ex [Ux Tx]]]].
    assert (x = a) by (apply (NoDup_map_inj id meas_df); assumption). subst x.
    apply Hm. exists b. repeat split; congruence. }
  split; apply Hgo; auto.
Qed.

Lemma prompt_for_types_whole_groups_witness :
  In (mkMeasRow 1 "A" "latency" (Some "train"))
     [ mkMeasRow 1 "A" "latency" (Some "train");
       mkMeasRow 4 "A" "latency" (Some "train");
       mkMeasRow 5 "A" "latency" (Some "eval") ]
  <-> In (mkMeasRow 5 "A" "latency" (Some "eval"))
         [ mkMeasRow 1 "A" "latency" (Some "train");
           mkMeasRow 4 "A" "latency" (Some "train");
           mkMeasRow 5 "A" "latency" (Some "eval") ].
Proof.
  apply (prompt_for_types_whole_groups CompareByEquality
           (mkUser tick_all (fun _ => Confirm (fun i => Nat.eqb i 1)) tick_all)
           repeated_meas).
  - repeat constructor; simpl; intuition discriminate.
  - left. reflexivity.
  - right. right. left. reflexivity.
  - reflexivity.
  - reflexivity.
  - reflexivity.
Defined.

(** X10.  The description stage selects whole groups: with unique row ids,
    two rows of the same run, measurement type and description are either
    both in the table the stage returns or both missing from it, whatever
    the user ticks. *)
Theorem prompt_for_description_whole_groups pol user (meas_df out : list MeasRow)
    (r r' : MeasRow) :
  NoDup (map id meas_df) ->
  In r meas_df -> In r' meas_df ->
  uuid r = uuid r' -> measurement_type r = measurement_type r' ->
  measurement_desc r = measurement_desc r' ->
  prompt_for_description pol user meas_df = inr out ->
  (In r out <-> In r' out).
Proof.
  intros Hnd Hr Hr' Eu Et Ed Hout.
  apply prompt_for_description_inr in Hout. destruct Hout as [res [Hres ->]].
  assert (Hgo : forall a b, In a meas_df -> In b meas_df ->
            uuid a = uuid b -> measurement_type a = measurement_type b ->
            measurement_desc a = measurement_desc b ->
            In a (keep_ids (concat res) meas_df) -> In b (keep_ids (concat res) meas_df)).
  { intros a b Ha Hb Eab Tab Dab Hin. apply keep_ids_In in Hin. destruct Hin as [_ Hi].
    apply keep_ids_In. split; [exact Hb|].
    apply in_concat in Hi. destruct Hi as [ids [Hids Hi]].
    apply in_concat. exists ids. split; [exact Hids|].
    destruct (prompt_In _ _ _ _ _ Hres Hids) as [name Hc].
    destruct (description_choice_members _ _ _ Hc) as [u [t Hm]].
    apply Hm in Hi. destruct Hi as [x [Hx [Ex [Ux [Tx Dx]]]]].
    assert (x = a) by (apply (NoDup_map_inj id meas_df); assumption). subst x.
    apply Hm. exists b. repeat split; congruence. }
  split; apply Hgo; auto.
Qed.

(** ** The payload joiner, in general *)

Lemma merge_In {L R K O : Type} (eqb : K -> K -> bool) (lkey : L -> K) (rkey : R -> K)
    (combine : L -> R -> O) (left : list L) (right : list R) (o : O) :
  In o (merge eqb lkey rkey combine left right) <->
  exists l r, In l left /\ In r right /\ eqb (lkey l) (rkey r) = true /\ o = combine l r.
Proof.
  unfold merge. rewrite in_flat_map. split.
  - intros [l [Hl Ho]]. apply in_map_iff in Ho. destruct Ho as [r [E Hr]].
    apply filter_In in Hr. exists l, r. intuition.
  - intros [l [r [Hl [Hr [Hk ->]]]]]. exists l. split; [exact Hl|].
    apply in_map. apply filter_In. auto.
Qed.

Lemma mapM_inr_Forall2 {A B : Type} (f : A -> result B) (l : list A) (ys : list B) :
  mapM f l = inr ys -> Forall2 (fun x y => f x = inr y) l ys.
Proof.
  revert ys. induction l as [|a l IH]; simpl; intros ys H.
  - inversion H. constructor.
  - destruct (f a) as [e|b] eqn:Ea; simpl in H; [discriminate|].
    destruct (mapM f l) as [e|bs]; simpl in H; [discriminate|].
    inversion H; subst. constructor; [exact Ea|]. apply IH. reflexivity.
Qed.

Lemma Forall2_In_l {A B : Type} (P : A -> B -> Prop) (l : list A) (l' : list B) (x : A) :
  Forall2 P l l' -> In x l -> exists y, In y l' /\ P x y.
Proof.
  induction 1 as [|a b l l' Hab HF IH]; simpl; [contradiction|].
  intros [->|Hin]; [exists b; auto|].
  destruct (IH Hin) as [y [Hy HP]]. exists y. auto.
Qed.

Lemma filter_twice {A : Type} (p : A -> bool) (l : list A) :
  filter p (filter p l) = filter p l.
Proof.
  rewrite filter_filter_and. apply filter_ext. intros a. apply andb_diag.
Qed.

Section JoinInGeneral.
Variable Payload : Type.
Variable pickle_loads : list Byte.byte -> option Payload.

Lemma unpickle_row_error (m : Measurement.t) (e : exn) :
  unpickle_row Payload pickle_loads m = inl e -> e = UnpicklingError.
Proof.
  unfold unpickle_row. destruct (pickle_loads (Measurement.value m)); [discriminate|].
  intros H. inversion H. reflexivity.
Qed.

(** X11.  When the payload of a measurement that is left in the working
    table cannot be decoded, the joiner fails with the decoding error and
    returns no table. *)
Theorem join_remaining_columns_undecodable (meas_df : list MeasRow) (meta_df : list MetaRow)
    (session : Session) (m : Measurement.t) :
  In m (measurements session) ->
  In (Measurement.id m) (map id meas_df) ->
  pickle_loads (Measurement.value m) = None ->
  join_remaining_columns Payload pickle_loads meas_df meta_df session = inl UnpicklingError.
Proof.
  intros Hm Hsel Hnone. unfold join_remaining_columns.
  set (sq := filter _ (measurements session)).
  assert (Hin : In m sq).
  { apply filter_In. split; [exact Hm|]. apply existsb_Zeqb_In. exact Hsel. }
  assert (Hf : unpickle_row Payload pickle_loads m = inl UnpicklingError).
  { unfold unpickle_row. rewrite Hnone. reflexivity. }
  destruct (mapM_In_inl _ _ _ _ Hin Hf) as [e He].
  rewrite He. cbn [bind Monad_either].
  apply mapM_inl_source in He. destruct He as [x [_ Hx]].
  apply unpickle_row_error in Hx. subst e. reflexivity.
Qed.

(** X12.  The joiner reads only the stored measurements whose id is in the
    working table: the other rows of the store, decodable or not, have no
    effect on what it returns. *)
Theorem join_remaining_columns_selected_only (meas_df : list MeasRow)
    (meta_df : list MetaRow) (session : Session) :
  join_remaining_columns Payload pickle_loads meas_df meta_df session =
  join_remaining_columns Payload pickle_loads meas_df meta_df
    (mkSession
       (filter (fun m => existsb (Z.eqb (Measurement.id m)) (map id meas_df))
               (measurements session))
       []).
Proof.
  unfold join_remaining_columns. cbn [measurements].
  rewrite filter_twice. reflexivity.
Qed.

(** X13.  What the joiner returns is the inner join: a row is in the output
    exactly when it pairs a row of the working table with the decoded stored
    measurement of the same id and with a metadata row of the same run id.
    A measurement whose run has no metadata row is thus left out, and one
    whose run has several is repeated. *)
Theorem join_remaining_columns_rows_iff (meas_df : list MeasRow) (meta_df : list MetaRow)
    (session : Session) (df : list (FlatRecord Payload)) :
  join_remaining_columns Payload pickle_loads meas_df meta_df session = inr df ->
  forall o,
    In o df <->
    In (flat_index o) meas_df
    /\ In (flat_meta o) meta_df
    /\ meta_uuid (flat_meta o) = uuid (flat_index o)
    /\ exists m, In m (measurements session)
                 /\ Measurement.id m = id (flat_index o)
                 /\ unpickle_row Payload pickle_loads m = inr (flat_payload o).
Proof.
  unfold join_remaining_columns.
  set (sel := fun m => existsb (Z.eqb (Measurement.id m)) (map id meas_df)).
  set (sq := filter sel (measurements session)).
  destruct (mapM (unpickle_row Payload pickle_loads) sq) as [e|sdf] eqn:Es;
    cbn [bind Monad_either ret]; [discriminate|].
  intros H o. inversion H; subst df; clear H.
  apply mapM_inr_Forall2 in Es.
  rewrite merge_In. split.
  - intros [l [b [Hl [Hb [Hk ->]]]]]. cbn [flat_index flat_meta flat_payload].
    apply merge_In in Hl. destruct Hl as [r [s [Hr [Hs [Hid ->]]]]].
    cbn [fst snd] in *. apply String.eqb_eq in Hk. apply Z.eqb_eq in Hid.
    destruct (Forall2_In_r _ _ _ _ Es Hs) as [m [Hm Hu]].
    apply filter_In in Hm. destruct Hm as [Hm _].
    repeat split; auto.
    exists m. repeat split; auto.
    apply unpickle_row_id in Hu. congruence.
  - intros [Hr [Hb [Eu [m [Hm [Eid Hu]]]]]].
    destruct o as [r s b]. cbn [flat_index flat_meta flat_payload] in *.
    exists (r, s), b. repeat split; auto.
    + apply merge_In. exists r, s. repeat split; auto.
      * assert (Hsq : In m sq).
        { apply filter_In. split; [exact Hm|]. apply existsb_Zeqb_In.
          rewrite Eid. apply in_map. exact Hr. }
        destruct (Forall2_In_l _ _ _ _ Es Hsq) as [s' [Hs' Hu']].
        congruence.
      * apply Z.eqb_eq. apply unpickle_row_id in Hu. congruence.
    + apply String.eqb_eq. cbn [fst]. congruence.
Qed.
End JoinInGeneral.

Lemma prompt_for_description_whole_groups_witness :
  In (mkMeasRow 1 "A" "latency" (Some "train"))
     [ mkMeasRow 1 "A" "latency" (Some "train");
       mkMeasRow 4 "A" "latency" (Some "train") ]
  <-> In (mkMeasRow 4 "A" "latency" (Some "train"))
         [ mkMeasRow 1 "A" "latency" (Some "train");
           mkMeasRow 4 "A" "latency" (Some "train") ].
Proof.
  apply (prompt_for_description_whole_groups CompareByEquality
           (mkUser tick_all tick_all (fun _ => Confirm (fun i => Nat.eqb i 2)))
           repeated_meas).
  - repeat constructor; simpl; intuition discriminate.
  - left. reflexivity.
  - right. left. reflexivity.
  - reflexivity.
  - reflexivity.
  - reflexivity.
  - reflexivity.
Defined.

Lemma join_remaining_columns_undecodable_witness :
  join_remaining_columns _ sample_loads scenario_meas scenario_meta damaged_session
  = inl UnpicklingError.
Proof.
  apply (join_remaining_columns_undecodable _ sample_loads scenario_meas scenario_meta
           damaged_session
           (Measurement.mk 2 "A" "memory" (Some "train") "2021-01-01 10:01" [] "MB")).
  - right. left. reflexivity.
  - right. left. reflexivity.
  - reflexivity.
Defined.

Lemma join_remaining_columns_rows_iff_witness :
  let o := mkFlatRecord (mkMeasRow 3 "B" "latency" (Some "train"))
             (mkSerializedRow 3 "2021-01-02 09:00" "s" [Byte.x4b; Byte.x09; Byte.x2e])
             (mkMetaRow "B" None "2021-01-02") in
  In o scenario_df <->
  In (flat_index o) scenario_meas
  /\ In (flat_meta o) scenario_meta
  /\ meta_uuid (flat_meta o) = uuid (flat_index o)
  /\ exists m, In m (measurements scenario_session)
               /\ Measurement.id m = id (flat_index o)
               /\ unpickle_row _ sample_loads m = inr (flat_payload o).
Proof.
  apply (join_remaining_columns_rows_iff _ sample_loads scenario_meas scenario_meta
           scenario_session scenario_df).
  reflexivity.
Defined.

(** ** The render dispatcher, in general *)

Lemma mapM_Forall2_inr {A B C : Type} (f : A -> result B) (g : C -> B) (l : list A)
    (ys : list C) :
  Forall2 (fun x y => f x = inr (g y)) l ys -> mapM f l = inr (map g ys).
Proof.
  induction 1 as [|a y l ys Hay HF IH]; simpl; [reflexivity|].
  rewrite Hay. simpl. rewrite IH. reflexivity.
Qed.

Lemma display_figures (backend : Backend) (figs : list PyObj) :
  forallb is_figure figs = true -> display backend figs = inr tt.
Proof.
  intros H. destruct backend; [reflexivity|]. unfold display.
  rewrite (mapM_inr_map show (fun _ => tt)); [reflexivity|].
  intros o Ho. rewrite forallb_forall in H. specialize (H o Ho).
  destruct o; try discriminate. reflexivity.
Qed.

Lemma chain_error (figs : list PyObj) (e : exn) : chain figs = inl e -> e = NotIterable.
Proof.
  unfold chain. destruct (mapM py_iter figs) as [e'|parts] eqn:E; cbn; [|discriminate].
  intros H. inversion H; subst e'.
  apply mapM_inl_source in E. destruct E as [o [_ Ho]].
  destruct o as [[|] h|s|items]; simpl in Ho; try discriminate.
  inversion Ho. reflexivity.
Qed.

Section DispatchInGeneral.
Variable Payload : Type.
Variable mapper : dict (VisualizerClass Payload).
Variable backend : Backend.

(** X14.  When the visualizer of every group hands back a list and the
    lists hold figures only, the dispatcher completes on either backend and
    returns the figures of all groups, group after group; the groups come in
    ascending order of their measurement type, each type once. *)
Theorem dispatch_figure_lists (df : list (FlatRecord Payload)) (parts : list (list PyObj)) :
  Forall2 (fun group figs => render_group Payload mapper backend group = inr (Seq figs))
          (type_groups Payload df) parts ->
  forallb is_figure (concat parts) = true ->
  dispatch Payload mapper backend df = inr (concat parts)
  /\ Sorted (fun a b => String.leb a b = true) (map fst (type_groups Payload df))
  /\ NoDup (map fst (type_groups Payload df)).
Proof.
  intros Hrender Hfigs. split; [|split].
  - unfold dispatch.
    rewrite (mapM_Forall2_inr _ Seq _ parts Hrender). cbn [bind Monad_either].
    rewrite chain_sequences. cbn [bind Monad_either].
    rewrite (display_figures backend _ Hfigs). reflexivity.
  - apply type_groups_ascending.
  - unfold type_groups. rewrite groupby_keys. apply group_keys_NoDup. exact String.eqb_eq.
Qed.

(** X15.  When every visualizer returns and one of them hands back a bare
    matplotlib figure, the dispatcher fails in the flattening with "not
    iterable", on either backend and whatever the other visualizers hand
    back. *)
Theorem dispatch_bare_matplotlib_figure (df : list (FlatRecord Payload))
    (group : string * list (FlatRecord Payload)) (handle : nat) :
  (forall g, In g (type_groups Payload df) ->
     exists o, render_group Payload mapper backend g = inr o) ->
  In group (type_groups Payload df) ->
  render_group Payload mapper backend group = inr (Figure matplotlib handle) ->
  dispatch Payload mapper backend df = inl NotIterable.
Proof.
  intros Hall Hin Hbare. unfold dispatch.
  destruct (mapM_Forall2 _ _ Hall) as [figs [Hfigs HF]].
  rewrite Hfigs. cbn [bind Monad_either].
  destruct (Forall2_In_l _ _ _ _ HF Hin) as [o [Ho Hr]].
  assert (o = Figure matplotlib handle) by congruence. subst o.
  destruct (chain_matplotlib_figure figs handle Ho) as [e He].
  rewrite He. apply chain_error in He. subst e. reflexivity.
Qed.
End DispatchInGeneral.

Lemma dispatch_figure_lists_witness :
  dispatch _ list_mapper plotly scenario_df
  = inr (concat [ [Figure plotly 1; Figure plotly 2]; [Figure plotly 3] ])
  /\ Sorted (fun a b => String.leb a b = true) (map fst (type_groups _ scenario_df))
  /\ NoDup (map fst (type_groups _ scenario_df)).
Proof.
  apply (dispatch_figure_lists _ list_mapper plotly scenario_df
           [ [Figure plotly 1; Figure plotly 2]; [Figure plotly 3] ]).
  - repeat constructor.
  - reflexivity.
Defined.

Lemma dispatch_bare_matplotlib_figure_witness :
  dispatch _ single_mapper matplotlib scenario_df = inl NotIterable.
Proof.
  apply (dispatch_bare_matplotlib_figure _ single_mapper matplotlib scenario_df
           ("latency", filter (fun r => String.eqb (measurement_type (flat_index r)) "latency")
                         scenario_df) 1%nat).
  - intros g [<-|[<-|[]]]; eexists; reflexivity.
  - left. reflexivity.
  - reflexivity.
Defined.

Lemma chain_items (figs flat : list PyObj) (o : PyObj) (items : list PyObj) :
  chain figs = inr flat -> In o figs -> py_iter o = inr items ->
  forall x, In x items -> In x flat.
Proof.
  unfold chain. destruct (mapM py_iter figs) as [e|parts] eqn:E; cbn; [discriminate|].
  intros H Ho Hi x Hx. inversion H; subst flat.
  apply mapM_inr_Forall2 in E.
  destruct (Forall2_In_l _ _ _ _ E Ho) as [items' [Hin Hit]].
  assert (items' = items) by congruence. subst items'.
  apply in_concat. exists items. auto.
Qed.

(** X16.  On the plotly backend a visualizer that hands back a bare plotly
    figure makes the dispatcher fail as well: the flattening replaces the
    figure by the names of its properties, and the display of the first name
    raises (unless the flattening has already raised on another result). *)
Theorem dispatch_bare_plotly_figure (Payload : Type) (mapper : dict (VisualizerClass Payload))
    (df : list (FlatRecord Payload)) (group : string * list (FlatRecord Payload))
    (handle : nat) :
  (forall g, In g (type_groups Payload df) ->
     exists o, render_group Payload mapper plotly g = inr o) ->
  In group (type_groups Payload df) ->
  render_group Payload mapper plotly group = inr (Figure plotly handle) ->
  dispatch Payload mapper plotly df = inl NotIterable
  \/ dispatch Payload mapper plotly df = inl NoShowAttribute.
Proof.
  intros Hall Hin Hbare. unfold dispatch.
  destruct (mapM_Forall2 _ _ Hall) as [figs [Hfigs HF]].
  rewrite Hfigs. cbn [bind Monad_either].
  destruct (Forall2_In_l _ _ _ _ HF Hin) as [o [Ho Hr]].
  assert (o = Figure plotly handle) by congruence. subst o.
  destruct (chain figs) as [e|flat] eqn:Ec; cbn [bind Monad_either].
  - left. apply chain_error in Ec. subst e. reflexivity.
  - right.
    assert (Hdata : In (Str "data") flat).
    { apply (chain_items figs flat _ _ Ec Ho eq_refl). left. reflexivity. }
    destruct (mapM_In_inl show flat _ NoShowAttribute Hdata eq_refl) as [e He].
    unfold display. rewrite He. cbn [bind Monad_either].
    apply mapM_inl_source in He. destruct He as [x [_ Hx]].
    destruct x; simpl in Hx; try discriminate; inversion Hx; reflexivity.
Qed.

Lemma dispatch_bare_plotly_figure_witness :
  dispatch _ single_mapper plotly scenario_df = inl NotIterable
  \/ dispatch _ single_mapper plotly scenario_df = inl NoShowAttribute.
Proof.
  apply (dispatch_bare_plotly_figure _ single_mapper scenario_df
           ("latency", filter (fun r => String.eqb (measurement_type (flat_index r)) "latency")
                         scenario_df) 1%nat).
  - intros g [<-|[<-|[]]]; eexists; reflexivity.
  - left. reflexivity.
  - reflexivity.
Defined.

(** ** [main] and the two readings of the nested lookup *)

Lemma select_policy args user (meas_df : list MeasRow) (meta_df : list MetaRow) :
  select SurfaceHashError args user meas_df meta_df
  = select CompareByEquality args user meas_df meta_df.
Proof.
  unfold select.
  destruct (uuids args);
    [cbn [bind Monad_either ret]
    |rewrite !prompt_for_uuid_eq; destruct (prompt "uuids" _ _) as [e|c];
     cbn [bind Monad_either ret]; [reflexivity|]];
    (destruct (types args);
     [cbn [bind Monad_either ret]
     |rewrite !prompt_for_types_eq; destruct (prompt "measurement_types" _ _) as [e|c'];
      cbn [bind Monad_either ret]; [reflexivity|]]);
    (destruct (descriptions args);
     [reflexivity|rewrite !prompt_for_description_eq; reflexivity]).
Qed.

(** X17.  Without criteria on the command line the run does not depend on
    how an unhashable lookup target is treated: every lookup of the
    interactive path is on strings or integers, and [main] gives the same
    result under both policies. *)
Theorem main_policy_independent (Payload : Type) pickle_loads
    (mapper : dict (VisualizerClass Payload)) args session user :
  truthy (uuids args) || truthy (types args) || truthy (descriptions args) = false ->
  main SurfaceHashError Payload pickle_loads mapper args session user
  = main CompareByEquality Payload pickle_loads mapper args session user.
Proof.
  intros H. unfold main, create_dfs.
  rewrite !filter_by_args_not_supplied by exact H.
  destruct (map _ (measurements session)); [reflexivity|].
  cbn [bind Monad_either].
  rewrite (select_policy args user). reflexivity.
Qed.

Lemma main_policy_independent_witness :
  main SurfaceHashError _ sample_loads list_mapper (no_criteria matplotlib)
    scenario_session no_types_user
  = main CompareByEquality _ sample_loads list_mapper (no_criteria matplotlib)
    scenario_session no_types_user.
Proof.
  apply (main_policy_independent _ sample_loads list_mapper (no_criteria matplotlib)
           scenario_session no_types_user).
  reflexivity.
Defined.

Lemma main_without_measurements_witness :
  main CompareByEquality _ sample_loads list_mapper (no_criteria matplotlib)
    empty_session full_user
  = inl NoDatabaseEntries.
Proof.
  apply (main_without_measurements CompareByEquality _ sample_loads list_mapper
           (no_criteria matplotlib) empty_session full_user).
  reflexivity.
Defined.

Lemma main_with_criteria_witness :
  main CompareByEquality _ sample_loads list_mapper
    (mkArgs "db" (Some ["A"]) None None matplotlib) scenario_session full_user
  = inl (wrapped_lookup_error CompareByEquality).
Proof.
  apply (main_with_criteria CompareByEquality _ sample_loads list_mapper
           (mkArgs "db" (Some ["A"]) None None matplotlib) scenario_session full_user).
  reflexivity.
Defined.
